(** * Adversarial hover environment of the quadrotor simulation

    Shallow embedding of [adversaryhover_phoenix_modified_train.py]:
    the physics substep with adversarial torques and drag
    ([PybulletPhysicsWithAdversary.step_forward]), the roll/pitch torque
    injection of [CrazyFlieBulletAgentWithAdversary], the action-space
    wrapper [NormalizeActionSpaceWrapper], and the environment
    [DroneHoverBulletEnvWithAdversary] (disturbance generator, simulation
    setup, control step, termination check).

    Numbers.  A finite floating-point number is the rational [Q] it
    denotes; infinities and NaN are outside the model.  Comparisons, [abs]
    and negation are exact on floats and are the ones of [Q].  Rounding to
    binary32 and binary64 is [float32] and [float64] (round to nearest, ties
    to even, with gradual underflow); it is applied where the code fixes a
    float type or a literal: the [float32] disturbance space and its
    samples, the literal [0.2], and the floating-point reading of the
    action-space wrapper.  The drag force, the motor model and the
    exact-arithmetic reading of the wrapper compute in [Q] without rounding,
    and equality of their results is [Qeq] ([==]), lifted to vectors
    componentwise.

    Effects.  Calls into the physics engine and into the inherited methods
    of the simulation library are recorded, in order, in a log of calls kept
    in the environment state; Python exceptions are results of a small
    state-and-exception monad, and the state reached when an exception is
    raised is kept (nothing is rolled back). *)

From Stdlib Require Import QArith Qabs Qpower Qround ZArith List String Bool.
From Stdlib Require Import Lia Lqa.
Import ListNotations.
Open Scope Q_scope.

(** ** Numbers and NumPy array helpers *)

(** [np.pi]: the binary64 constant 3.141592653589793, whose exact value is
    884279719003555 / 2^48. *)
Definition np_pi : Q := 884279719003555 # 281474976710656.

(** Rounding of a rational to the nearest integer, ties to even. *)
Definition rne (q : Q) : Z :=
  let f := Qfloor q in
  match Qcompare (q - inject_Z f) (1 # 2) with
  | Lt => f
  | Gt => (f + 1)%Z
  | Eq => if Z.even f then f else (f + 1)%Z
  end.

(** The binary exponent of a positive rational: the [e] with
    [2^e <= x < 2^(e+1)], found from the bit lengths of numerator and
    denominator and one comparison. *)
Definition ilog2 (x : Q) : Z :=
  let e0 := (Z.log2 (Qnum x) - Z.log2 (Zpos (Qden x)))%Z in
  if Qle_bool (Qpower 2 e0) x then e0 else (e0 - 1)%Z.

(** Rounding of a positive rational to [p] significant bits, with the
    exponent not below [emin] (gradual underflow). *)
Definition round_pos (p emin : Z) (x : Q) : Q :=
  let e := Z.max (ilog2 x) emin in
  let u := Qpower 2 (e - p + 1) in
  inject_Z (rne (x / u)) * u.

(** Rounding to a binary floating-point format with [p] significant bits
    and least normal exponent [emin]: round to nearest, ties to even.
    Overflow to infinity is outside the model. *)
Definition np_round (p emin : Z) (x : Q) : Q :=
  match Qcompare x 0 with
  | Eq => 0
  | Gt => round_pos p emin x
  | Lt => - round_pos p emin (- x)
  end.

(** [np.float64] and [np.float32]. *)
Definition float64 (x : Q) : Q := np_round 53 (-1022) x.
Definition float32 (x : Q) : Q := np_round 24 (-126) x.

(** Python's [a < b] on numbers. *)
Definition Qltb (a b : Q) : bool := negb (Qle_bool b a).

(** Truth value of a number: non-zero. *)
Definition truthy (r : Q) : bool := negb (Qeq_bool r 0).

(** A 3-component array as the engine returns it (position, Euler angles,
    linear and angular velocity). *)
Record vec3 : Type := mkVec3 { c0 : Q; c1 : Q; c2 : Q }.

Definition to_list (v : vec3) : list Q := [c0 v; c1 v; c2 v].

(** [np.abs(a)] *)
Definition np_abs (a : list Q) : list Q := map Qabs a.

(** [a > s] for an array [a] and a scalar [s]: a boolean mask. *)
Definition np_gt (a : list Q) (s : Q) : list bool := map (fun r => Qltb s r) a.

(** [a[mask]]: the entries of [a] where the mask is set. *)
Fixpoint np_select (a : list Q) (mask : list bool) : list Q :=
  match a, mask with
  | r :: a', b :: mask' =>
      if b then r :: np_select a' mask' else np_select a' mask'
  | _, _ => []
  end.

(** [a.any()]: some entry is non-zero. *)
Definition np_any (a : list Q) : bool := existsb truthy a.

(** [np.sum(a)] *)
Definition np_sum (a : list Q) : Q := fold_left Qplus a 0.

(** Componentwise equality of vectors up to [==]. *)
Definition veq (u v : list Q) : Prop := Forall2 Qeq u v.
Infix "=v=" := veq (at level 70, no associativity).

(** ** The drone as the environment reads it *)

(** Attributes of [self.drone] used by the code: the body id in the engine,
    the drag coefficient, the motor state [x], and the pose and velocity
    information refreshed by [update_information]. *)
Record Drone : Type := mkDrone {
  body_unique_id : Z;
  DRAG_COEFF : Q;
  x : list Q;
  quaternion : list Q;
  xyz : vec3;
  xyz_dot : vec3;
  rpy : vec3;
  rpy_dot : vec3
}.

(** ** Exceptions and the state monad *)

Inductive Exc : Type :=
| IndexError
| NotImplementedError
| AssertionError
| ValueError.

(** A computation over a state [S]: the final state and either the raised
    exception or the returned value. *)
Definition M (S A : Type) : Type := S -> S * (Exc + A).

Definition ret {S A : Type} (a : A) : M S A := fun s => (s, inr a).

Definition raise {S A : Type} (e : Exc) : M S A := fun s => (s, inl e).

Definition bind {S A B : Type} (m : M S A) (k : A -> M S B) : M S B :=
  fun s =>
    match m s with
    | (s', inl e) => (s', inl e)
    | (s', inr a) => k a s'
    end.

Definition gets {S A : Type} (f : S -> A) : M S A := fun s => (s, inr (f s)).

Definition modify {S : Type} (f : S -> S) : M S unit := fun s => (f s, inr tt).

Declare Scope monad_scope.
Delimit Scope monad_scope with monad.
Notation "x <- m ;; k" := (bind m (fun x => k))
  (at level 61, m at next level, right associativity) : monad_scope.
Notation "m ;; k" := (bind m (fun _ => k))
  (at level 61, right associativity) : monad_scope.
Notation "' pat <- m ;; k" := (bind m (fun v => match v with pat => k end))
  (at level 61, pat pattern, m at next level, right associativity) : monad_scope.
Open Scope monad_scope.

(** [for _ in range(n): body] *)
Fixpoint for_range {S : Type} (n : nat) (body : M S unit) : M S unit :=
  match n with
  | O => ret tt
  | Datatypes.S n' => body ;; for_range n' body
  end.

(** [a[i]] on a Python sequence, for [i >= 0]. *)
Definition index {S : Type} (a : list Q) (i : nat) : M S Q :=
  match nth_error a i with
  | Some r => ret r
  | None => raise IndexError
  end.

(** ** The engine, the agent and the environment state *)

(** 3x3 matrix, the value of
    [np.array(pb.getMatrixFromQuaternion(quat)).reshape(3, 3)]. *)
Record mat3 : Type := mkMat3 { row0 : vec3; row1 : vec3; row2 : vec3 }.

Definition dot3 (u v : vec3) : Q := c0 u * c0 v + c1 u * c1 v + c2 u * c2 v.

(** [np.dot(m, v)] for a 3x3 matrix and a 3-vector. *)
Definition np_dot (m : mat3) (v : vec3) : vec3 :=
  mkVec3 (dot3 (row0 m) v) (dot3 (row1 m) v) (dot3 (row2 m) v).

(** [s * v] for a scalar [s] and a 3-vector [v]. *)
Definition scale (s : Q) (v : vec3) : vec3 :=
  mkVec3 (s * c0 v) (s * c1 v) (s * c2 v).

Definition v3eq (u v : vec3) : Prop :=
  c0 u == c0 v /\ c1 u == c1 v /\ c2 u == c2 v.

Definition zero3 : vec3 := mkVec3 0 0 0.

Inductive Frame : Type := LINK_FRAME | WORLD_FRAME.

(** Where an engine function is called: on the client [self.bc] of the
    environment or on the module [pb] itself. *)
Inductive Client : Type := self_bc | pb_module.

(** The calls with an effect that the code makes, as they are logged: calls
    of the engine client [bc] ([applyExternalTorque], [stepSimulation],
    [setAdditionalSearchPath], [loadURDF], [resetDebugVisualizerCamera]),
    inherited methods of the agent and of the environment, the sampling of
    the disturbance space, constructors, and [print]. *)
Inductive Call : Type :=
| applyExternalTorque (objectUniqueId linkIndex : Z) (torqueObj : list Q)
    (flags : Frame)
| stepSimulation
| drone_apply_action (action : list Q)
| drone_apply_motor_forces (forces : list Q)
| drone_apply_z_torque (torque : Q)
| drone_apply_force (force : vec3)
| drone_update_information
| dstb_space_sample
| physics_step_forward (action dstb : list Q)
| env_compute_observation
| env_compute_history
| env_compute_reward (action : list Q)
| env_compute_info
| setAdditionalSearchPath
| loadURDF (via : Client) (fileName : string) (useFixedBase : bool)
| resetDebugVisualizerCamera
| super_setup_task_specifics
| print (text : string)
| new_agent (class : string)
| new_physics (class : string).

(** Random source of [dstb_space]: the unit draws of its generator and how
    many were consumed. *)
Record Rng : Type := mkRng { draws : nat -> Q; cursor : nat }.

(** State of a constructed environment, with the objects it shares with its
    physics ([self.drone], the engine log). *)
Record Env : Type := mkEnv {
  drone : Drone;
  calls : list Call;
  use_ground_effect : bool;
  aggregate_phy_steps : Z;
  iteration : Z;
  last_action : list Q;
  np_random : Rng
}.

Definition set_drone (d : Drone) (e : Env) : Env :=
  mkEnv d (calls e) (use_ground_effect e) (aggregate_phy_steps e)
    (iteration e) (last_action e) (np_random e).

Definition log (c : Call) (e : Env) : Env :=
  mkEnv (drone e) (calls e ++ [c]) (use_ground_effect e)
    (aggregate_phy_steps e) (iteration e) (last_action e) (np_random e).

Definition set_iteration (i : Z) (e : Env) : Env :=
  mkEnv (drone e) (calls e) (use_ground_effect e) (aggregate_phy_steps e)
    i (last_action e) (np_random e).

Definition set_last_action (a : list Q) (e : Env) : Env :=
  mkEnv (drone e) (calls e) (use_ground_effect e) (aggregate_phy_steps e)
    (iteration e) a (np_random e).

Definition set_np_random (g : Rng) (e : Env) : Env :=
  mkEnv (drone e) (calls e) (use_ground_effect e) (aggregate_phy_steps e)
    (iteration e) (last_action e) g.

Definition emit (c : Call) : M Env unit := modify (log c).

(** What the code takes from the simulation library and the engine, whose
    bodies are not part of the sources: the motor model of the agent
    ([apply_action] updates the agent and returns the motor forces and the
    yaw torque), the refresh of the agent from the engine (which depends on
    the calls made so far), the ground-effect computation of the physics
    base class, the rotation matrix of a quaternion, the observation,
    reward and info of the base environment, and the conversions between
    degrees and radians of the library's utilities. *)
Class Library : Type := mkLibrary {
  Observation : Type;
  InfoDict : Type;
  agent_apply_action : Drone -> list Q -> Drone * (list Q * Q);
  agent_update_information : list Call -> Drone -> Drone;
  agent_get_state : Drone -> list Q;
  ground_effect : Drone -> list Q -> bool * list Q;
  rotation_matrix : list Q -> mat3;
  history : Env -> Observation;
  reward : Env -> list Q -> Q;
  info : Env -> InfoDict;
  deg2rad : Q -> Q;
  rad2deg : Q -> Q
}.

Section Simulation.
Context {L : Library}.

(** *** Inherited agent methods *)

Definition apply_action (action : list Q) : M Env (list Q * Q) :=
  fun e =>
    let '(d, out) := agent_apply_action (drone e) action in
    (log (drone_apply_action action) (set_drone d e), inr out).

Definition apply_motor_forces (forces : list Q) : M Env unit :=
  emit (drone_apply_motor_forces forces).

Definition apply_z_torque (torque : Q) : M Env unit :=
  emit (drone_apply_z_torque torque).

Definition apply_force (force : vec3) : M Env unit :=
  emit (drone_apply_force force).

Definition update_information : M Env unit :=
  fun e =>
    (log drone_update_information
       (set_drone (agent_update_information (calls e) (drone e)) e), inr tt).

Definition calculate_ground_effect (motor_forces : list Q)
  : M Env (bool * list Q) :=
  gets (fun e => ground_effect (drone e) motor_forces).

(** *** [CrazyFlieBulletAgentWithAdversary] *)

(** [apply_x_torque]: torque responsible for roll, on link 4 (the centre
    of mass link), in the link frame. *)
Definition apply_x_torque (torque : Q) : M Env unit :=
  id <- gets (fun e => body_unique_id (drone e)) ;;
  emit (applyExternalTorque id 4 [torque; 0; 0] LINK_FRAME).

(** [apply_y_torque]: torque responsible for pitch. *)
Definition apply_y_torque (torque : Q) : M Env unit :=
  id <- gets (fun e => body_unique_id (drone e)) ;;
  emit (applyExternalTorque id 4 [0; torque; 0] LINK_FRAME).

(** *** [PybulletPhysicsWithAdversary.step_forward] *)

(** The RPM proxy of the drag model: [self.drone.x**2 * 25000]. *)
Definition rpm_of (d : Drone) : list Q := map (fun xi => xi ^ 2 * 25000) (x d).

(** [-1 * self.drone.DRAG_COEFF * np.sum(2*np.pi*rpm/60)] *)
Definition drag_factors (d : Drone) : Q :=
  -1 * DRAG_COEFF d * np_sum (map (fun r => 2 * np_pi * r / 60) (rpm_of d)).

(** The drag force: [np.dot(base_rot, drag_factors*np.array(vel))], with
    [quat], [vel] and [x] read from the agent. *)
Definition drag_force (d : Drone) : vec3 :=
  let quat := quaternion d in
  let vel := xyz_dot d in
  let base_rot := rotation_matrix quat in
  np_dot base_rot (scale (drag_factors d) vel).

Definition step_forward (action dstb : list Q) : M Env unit :=
  '(motor_forces, z_torque) <- apply_action action ;;
  apply_motor_forces motor_forces ;;
  apply_z_torque z_torque ;;
  d0 <- index dstb 0 ;;
  apply_x_torque d0 ;;
  d1 <- index dstb 1 ;;
  apply_y_torque d1 ;;
  drag <- gets (fun e => drag_force (drone e)) ;;
  apply_force drag ;;
  '(apply_ground_eff, ge_forces) <- calculate_ground_effect motor_forces ;;
  use <- gets use_ground_effect ;;
  (if apply_ground_eff && use then apply_motor_forces ge_forces else ret tt) ;;
  emit stepSimulation ;;
  update_information.

(** *** The disturbance generator *)

(** [gym.spaces.Box] with its bounds, as the space stores them. *)
Record Box : Type := mkBox { low : list Q; high : list Q }.

(** [10**-n] for a positive [n]: a Python float, the binary64 number
    nearest to the power. *)
Definition py_pow10_neg (n : Z) : Q := float64 (Qpower 10 (- n)).

(** [gym.spaces.Box(low=np.array(lo), high=np.array(hi), dtype=np.float32)]:
    the bounds are stored in the type of the space. *)
Definition Box_float32 (lo hi : list Q) : Box :=
  mkBox (map float32 lo) (map float32 hi).

(** [self.dstb_space], assigned once in [__init__]. *)
Definition dstb_space : Box :=
  Box_float32
    [-1 * py_pow10_neg 3; -1 * py_pow10_neg 3; -1 * py_pow10_neg 4]
    [1 * py_pow10_neg 3; 1 * py_pow10_neg 3; 1 * py_pow10_neg 4].

(** Modelled from the spec: [Box.sample] of the gym library, which is not
    part of the sources, returns a vector uniformly drawn from the per-axis
    bounds.  As in NumPy, coordinate [i] is [low_i + (high_i - low_i) * u]
    computed in binary64 for the next unit draw [u] of the generator of the
    space, and the sample is then cast to the type of the space. *)
Fixpoint uniform (lo hi : list Q) (u : nat -> Q) (k : nat) : list Q :=
  match lo, hi with
  | l :: lo', h :: hi' =>
      float32 (float64 (l + float64 (float64 (h - l) * u k)))
      :: uniform lo' hi' u (S k)
  | _, _ => []
  end.

(** Modelled from the spec: [Box.sample] of the gym library.  Each call is
    an independent draw; the model takes its unit draws from the stream of
    the generator of the space, one per coordinate, and the cursor records
    how many were used, so that two calls never share a draw.  The call is
    logged. *)
Definition Box_sample (b : Box) : M Env (list Q) :=
  fun e =>
    let g := np_random e in
    (log dstb_space_sample
       (set_np_random (mkRng (draws g) (cursor g + List.length (low b))) e),
     inr (uniform (low b) (high b) (draws g) (cursor g))).

(** [self.dstb_gen = lambda x: self.dstb_space.sample()] *)
Definition dstb_gen (x : list Q) : M Env (list Q) := Box_sample dstb_space.

(** *** [DroneHoverBulletEnvWithAdversary.compute_done] *)

(** On [self.drone]; [deg2rad] and [rad2deg] are the library's, and the
    literal [0.2] is the binary64 number nearest to 2/10. *)
Definition compute_done (drone : Drone) : bool :=
  let rp := firstn 2 (to_list (rpy drone)) in
  let d := deg2rad 75 in
  let z_limit := Qltb (c2 (xyz drone)) (float64 0.2) in
  let rpy_limit := np_any (np_select rp (np_gt (np_abs rp) d)) in
  let rpy_dot := to_list (rpy_dot drone) in
  let rpy_dot_limit :=
    np_any (np_select rpy_dot (np_gt (map rad2deg (np_abs rpy_dot)) 1000)) in
  if rpy_limit || rpy_dot_limit || z_limit then true else false.

(** *** [DroneHoverBulletEnvWithAdversary.step] *)

Definition compute_observation : M Env unit := emit env_compute_observation.

Definition compute_history : M Env Observation :=
  emit env_compute_history ;; gets history.

Definition compute_reward (action : list Q) : M Env Q :=
  emit (env_compute_reward action) ;; gets (fun e => reward e action).

Definition compute_info : M Env InfoDict :=
  emit env_compute_info ;; gets info.

(** One turn of the loop of [step]; the call of [self.physics.step_forward]
    is logged where it is made. *)
Definition substep (action dstb : list Q) : M Env unit :=
  emit (physics_step_forward action dstb) ;;
  step_forward action dstb ;;
  compute_observation ;;
  modify (fun e => set_iteration (iteration e + 1)%Z e).

Definition step (action : list Q)
  : M Env (Observation * Q * bool * InfoDict) :=
  x <- gets (fun e => agent_get_state (drone e)) ;;
  dstb <- dstb_gen x ;;
  n <- gets aggregate_phy_steps ;;
  for_range (Z.to_nat n) (substep action dstb) ;;
  next_obs <- compute_history ;;
  r <- compute_reward action ;;
  info <- compute_info ;;
  done <- gets (fun e => compute_done (drone e)) ;;
  modify (set_last_action action) ;;
  ret (next_obs, r, done, info).

End Simulation.

(** ** A concrete library, for running the model *)

(** Motor model with a first-order lag: each motor state moves halfway
    towards its command; the forces are the new motor states and the yaw
    torque is their sum. *)
Fixpoint lag (xs action : list Q) : list Q :=
  match xs, action with
  | xi :: xs', a :: action' => (xi / 2 + a / 2) :: lag xs' action'
  | _, _ => xs
  end.

Definition lag_apply_action (d : Drone) (action : list Q)
  : Drone * (list Q * Q) :=
  let x' := lag (x d) action in
  (mkDrone (body_unique_id d) (DRAG_COEFF d) x' (quaternion d) (xyz d)
     (xyz_dot d) (rpy d) (rpy_dot d),
   (x', np_sum x')).

Definition identity3 : mat3 :=
  mkMat3 (mkVec3 1 0 0) (mkVec3 0 1 0) (mkVec3 0 0 1).

(** The conversions between degrees and radians through [np.pi], computed
    in binary64. *)
Definition deg2rad_float64 (deg : Q) : Q := float64 (float64 (deg * np_pi) / 180).
Definition rad2deg_float64 (rad : Q) : Q := float64 (float64 (rad * 180) / np_pi).

(** A library whose engine leaves the pose alone, with ground effect below
    altitude 1/2. *)
Definition lag_library : Library :=
  mkLibrary unit unit
    lag_apply_action
    (fun _ d => d)
    (fun d => to_list (xyz d))
    (fun d forces => (Qltb (c2 (xyz d)) (1 # 2), forces))
    (fun _ => identity3)
    (fun _ => tt)
    (fun _ _ => 0)
    (fun _ => tt)
    deg2rad_float64
    rad2deg_float64.

Definition hover_drone : Drone :=
  mkDrone 7 (1 # 100) [1; 1; 1; 1] [0; 0; 0; 1]
    (mkVec3 0 0 1) (mkVec3 1 2 3) zero3 zero3.

Definition hover_env : Env :=
  mkEnv hover_drone [] true 2 0 [] (mkRng (fun _ => 1 # 2) 0).

(** ** [NormalizeActionSpaceWrapper] *)

(** The transforms of the wrapper are given twice.  [normalize_action] and
    [denormalize_action] read the arithmetic of the source exactly, on
    rationals: this is the transform that the code approximates.
    [normalize_action_float] and [denormalize_action_float] further below
    read it as NumPy computes it, every elementwise operation rounded to
    the float type of its result. *)

(** The bounds of the wrapped action space, stored by [__init__]. *)
Record Wrapper : Type := mkWrapper {
  action_space_low : list Q;
  action_space_high : list Q
}.

Fixpoint map2 (f : Q -> Q -> Q) (a b : list Q) : list Q :=
  match a, b with
  | r :: a', t :: b' => f r t :: map2 f a' b'
  | _, _ => []
  end.

(** An arithmetic operator on two one-dimensional arrays: elementwise on
    equal lengths, an array of length one is broadcast, any other pair of
    shapes raises [ValueError]. *)
Definition np_binop {S : Type} (f : Q -> Q -> Q) (a b : list Q)
  : M S (list Q) :=
  if Nat.eqb (List.length a) (List.length b) then ret (map2 f a b)
  else
    match a, b with
    | [r], _ => ret (map (f r) b)
    | _, [t] => ret (map (fun r => f r t) a)
    | _, _ => raise ValueError
    end.

Definition normalize_action (action : list Q) : M Wrapper (list Q) :=
  lo <- gets action_space_low ;;
  hi <- gets action_space_high ;;
  shifted <- np_binop Qminus action lo ;;
  width <- np_binop Qminus hi lo ;;
  ratio <- np_binop Qdiv shifted width ;;
  ret (map (fun r => 2 * r - 1) ratio).

Definition denormalize_action (action : list Q) : M Wrapper (list Q) :=
  lo <- gets action_space_low ;;
  hi <- gets action_space_high ;;
  width <- np_binop Qminus hi lo ;;
  scaled <- np_binop Qmult (map (fun r => (r + 1) / 2) action) width ;;
  np_binop Qplus scaled lo.

(** [action]: from [-1,1] to the original range. *)
Definition action (a : list Q) : M Wrapper (list Q) := denormalize_action a.

(** [reverse_action]: from the original range to [-1,1]. *)
Definition reverse_action (a : list Q) : M Wrapper (list Q) :=
  normalize_action a.

(** *** The transforms in floating point *)






















(** ** Simulation setup *)

(** The environment while it is being set up: configuration, the objects
    created so far ([self.drone] and [self.physics] by class name, absent
    before their constructor has run), the attributes of the module
    [phoenix_physics] (name and the class bound to it), and the log. *)
Record Setup : Type := mkSetup {
  drone_model : string;
  G : Q;
  TIME_STEP : Q;
  g : option Q;
  time_step : option Q;
  PLANE_ID : option Z;
  assets_path : string;
  agent : option string;
  physics_object : option string;
  phoenix_physics : list (string * string);
  setup_calls : list Call
}.

Definition setup_log (c : Call) (s : Setup) : Setup :=
  mkSetup (drone_model s) (G s) (TIME_STEP s) (g s) (time_step s)
    (PLANE_ID s) (assets_path s) (agent s) (physics_object s)
    (phoenix_physics s) (setup_calls s ++ [c]).

Definition setup_emit (c : Call) : M Setup unit := modify (setup_log c).

Definition is_loadURDF (c : Call) : bool :=
  match c with loadURDF _ _ _ => true | _ => false end.

(** [self.g = self.G; self.time_step = self.TIME_STEP] *)
Definition reset_variables (s : Setup) : Setup :=
  mkSetup (drone_model s) (G s) (TIME_STEP s) (Some (G s))
    (Some (TIME_STEP s)) (PLANE_ID s) (assets_path s) (agent s)
    (physics_object s) (phoenix_physics s) (setup_calls s).

(** [loadURDF] returns the id of the new body; the engine numbers the
    bodies in the order they are loaded. *)
Definition load_urdf (via : Client) (fileName : string) (useFixedBase : bool)
  : M Setup Z :=
  fun s =>
    (setup_log (loadURDF via fileName useFixedBase) s,
     inr (Z.of_nat (List.length (filter is_loadURDF (setup_calls s))))).

Definition set_PLANE_ID (i : Z) (s : Setup) : Setup :=
  mkSetup (drone_model s) (G s) (TIME_STEP s) (g s) (time_step s)
    (Some i) (assets_path s) (agent s) (physics_object s)
    (phoenix_physics s) (setup_calls s).

(** [self.drone = cls(bc=self.bc, **self.agent_params)] *)
Definition construct_drone (cls : string) : M Setup unit :=
  setup_emit (new_agent cls) ;;
  modify (fun s =>
    mkSetup (drone_model s) (G s) (TIME_STEP s) (g s) (time_step s)
      (PLANE_ID s) (assets_path s) (Some cls) (physics_object s)
      (phoenix_physics s) (setup_calls s)).

(** [self.physics = physics_cls(self.drone, self.bc, time_step=...)].  The
    attributes of [phoenix_physics] are taken to be physics classes whose
    constructor returns. *)
Definition construct_physics (cls : string) : M Setup unit :=
  setup_emit (new_physics cls) ;;
  modify (fun s =>
    mkSetup (drone_model s) (G s) (TIME_STEP s) (g s) (time_step s)
      (PLANE_ID s) (assets_path s) (agent s) (Some cls)
      (phoenix_physics s) (setup_calls s)).

(** [setattr(module, name, cls)] *)
Definition setattr (name cls : string) : M Setup unit :=
  modify (fun s =>
    mkSetup (drone_model s) (G s) (TIME_STEP s) (g s) (time_step s)
      (PLANE_ID s) (assets_path s) (agent s) (physics_object s)
      ((name, cls) :: phoenix_physics s) (setup_calls s)).

Fixpoint lookup (name : string) (attrs : list (string * string))
  : option string :=
  match attrs with
  | [] => None
  | (n, v) :: attrs' => if String.eqb name n then Some v else lookup name attrs'
  end.

(** [assert cond] *)
Definition assert {S : Type} (cond : bool) : M S unit :=
  if cond then ret tt else raise AssertionError.

(** [os.path.join(dir, name)], for a directory without trailing separator. *)
Definition path_join (dir name : string) : string :=
  (dir ++ "/" ++ name)%string.

(** [_setup_task_specifics]: the parent's, then the camera reset. *)
Definition _setup_task_specifics : M Setup unit :=
  setup_emit super_setup_task_specifics ;;
  setup_emit resetDebugVisualizerCamera.

(** [DroneHoverBulletEnvWithAdversary._setup_simulation] *)
Definition _setup_simulation (physics : string) : M Setup unit :=
  modify reset_variables ;;
  setup_emit setAdditionalSearchPath ;;
  plane <- load_urdf self_bc "plane.urdf" false ;;
  modify (set_PLANE_ID plane) ;;
  dir <- gets assets_path ;;
  load_urdf pb_module (path_join dir "room_10x10.urdf") true ;;
  model <- gets drone_model ;;
  (if String.eqb model "cf21x_bullet" then
     construct_drone "CrazyFlieBulletAgent"
   else if String.eqb model "cf21x_sys_eq" then
     construct_drone "CrazyFlieSimpleAgent"
   else if String.eqb model "cf21x_bullet_adversary" then
     setup_emit (print "Loading drone model:") ;;
     construct_drone "CrazyFlieBulletAgentWithAdversary"
   else raise NotImplementedError) ;;
  setattr "PybulletPhysicsWithAdversary" "PybulletPhysicsWithAdversary" ;;
  attrs <- gets phoenix_physics ;;
  match lookup physics attrs with
  | None => raise AssertionError
  | Some physics_cls =>
      (if String.eqb physics "PybulletPhysicsWithAdversary" then
         assert (String.eqb model "cf21x_bullet_adversary")
       else ret tt) ;;
      construct_physics physics_cls ;;
      _setup_task_specifics
  end.

Definition fresh_setup (model : string) : Setup :=
  mkSetup model (981 # 100) (1 # 200) None None None "assets" None None
    [("PyBulletPhysics"%string, "PyBulletPhysics"%string);
     ("SimplePhysics"%string, "SimplePhysics"%string)]
    [].


(** ** Statements about the termination check *)

Section TerminationRule.
Context {L : Library}.

(** The rule as the code evaluates it: altitude below the binary64 number
    0.2, or roll or pitch magnitude above [deg2rad 75], or the magnitude of
    any of the three angular rates, converted by [rad2deg], above 1000. *)
Definition done_rule (d : Drone) : Prop :=
  c2 (xyz d) < float64 0.2 \/
  (deg2rad 75 < Qabs (c0 (rpy d)) \/ deg2rad 75 < Qabs (c1 (rpy d))) \/
  (1000 < rad2deg (Qabs (c0 (rpy_dot d))) \/
   1000 < rad2deg (Qabs (c1 (rpy_dot d))) \/
   1000 < rad2deg (Qabs (c2 (rpy_dot d)))).

(** The rule with the yaw rate left out of the rate condition. *)
Definition done_rule_without_yaw_rate (d : Drone) : Prop :=
  c2 (xyz d) < float64 0.2 \/
  (deg2rad 75 < Qabs (c0 (rpy d)) \/ deg2rad 75 < Qabs (c1 (rpy d))) \/
  (1000 < rad2deg (Qabs (c0 (rpy_dot d))) \/
   1000 < rad2deg (Qabs (c1 (rpy_dot d)))).

End TerminationRule.

(** Level at altitude 1, spinning about the yaw axis at 20 rad/s (about
    1146 degrees per second). *)
Definition yaw_spin_drone : Drone :=
  mkDrone 7 (1 # 100) [1; 1; 1; 1] [0; 0; 0; 1]
    (mkVec3 0 0 1) zero3 zero3 (mkVec3 0 0 20).

(** ** Statements about the log *)

(** The calls logged between two states of the log. *)
Definition new_calls (before after : list Call) : list Call :=
  skipn (List.length before) after.

Definition is_torque (c : Call) : bool :=
  match c with applyExternalTorque _ _ _ _ => true | _ => false end.

Definition is_tick (c : Call) : bool :=
  match c with stepSimulation => true | _ => false end.

Definition is_sample (c : Call) : bool :=
  match c with dstb_space_sample => true | _ => false end.

Definition is_step_forward (c : Call) : bool :=
  match c with physics_step_forward _ _ => true | _ => false end.

(** The forces given to [apply_force], in order. *)
Fixpoint forces_applied (t : list Call) : list vec3 :=
  match t with
  | [] => []
  | drone_apply_force f :: t' => f :: forces_applied t'
  | _ :: t' => forces_applied t'
  end.

Section Order.
Context {L : Library}.

(** The calls of one substep in the order the specification lists them,
    for a disturbance whose first two components are [d0] and [d1]: motor
    model, motor forces, yaw torque, roll and pitch disturbance torques,
    drag, the ground-effect forces when the predicate holds and the flag
    is set, one integration tick, the refresh of the agent. *)
Definition ordered_calls (e : Env) (action : list Q) (d0 d1 : Q)
  : list Call :=
  let '(d, (motor_forces, z_torque)) := agent_apply_action (drone e) action in
  let '(apply_ground_eff, ge_forces) := ground_effect d motor_forces in
  [drone_apply_action action;
   drone_apply_motor_forces motor_forces;
   drone_apply_z_torque z_torque;
   applyExternalTorque (body_unique_id d) 4 [d0; 0; 0] LINK_FRAME;
   applyExternalTorque (body_unique_id d) 4 [0; d1; 0] LINK_FRAME;
   drone_apply_force (drag_force d)]
  ++ (if apply_ground_eff && use_ground_effect e
      then [drone_apply_motor_forces ge_forces] else [])
  ++ [stepSimulation; drone_update_information].

(** The agent after the motor model has run on it. *)
Definition after_action (e : Env) (action : list Q) : Drone :=
  fst (agent_apply_action (drone e) action).

End Order.

(** ** Statements about the drag force *)

Section Drag.
Context {L : Library}.

(** [-drag_coeff * sum over motors of (2*pi*rpm/60)] *)
Definition drag_factor_of (drag_coeff : Q) (rpm : list Q) : Q :=
  - drag_coeff * fold_right Qplus 0 (map (fun r => 2 * np_pi * r / 60) rpm).

(** The velocity rotated by the matrix of the orientation, then scaled by
    the drag factor of the given per-motor RPM values. *)
Definition rotated_scaled_drag (d : Drone) (rpm : list Q) : vec3 :=
  scale (drag_factor_of (DRAG_COEFF d) rpm)
    (np_dot (rotation_matrix (quaternion d)) (xyz_dot d)).

(** The transposed matrix: for a rotation, the inverse rotation. *)
Definition transpose (m : mat3) : mat3 :=
  mkMat3 (mkVec3 (c0 (row0 m)) (c0 (row1 m)) (c0 (row2 m)))
         (mkVec3 (c1 (row0 m)) (c1 (row1 m)) (c1 (row2 m)))
         (mkVec3 (c2 (row0 m)) (c2 (row1 m)) (c2 (row2 m))).


End Drag.

(** The matrix that the engine returns from [getMatrixFromQuaternion] for
    the quaternion (x, y, z, w) of a body, computed as the engine does.
    Its columns are the axes of the body in world coordinates: applied to a
    vector in body coordinates it gives the vector in world coordinates. *)
Definition quaternion_matrix (qx qy qz qw : Q) : mat3 :=
  let d := qx * qx + qy * qy + qz * qz + qw * qw in
  let s := 2 / d in
  let xs := qx * s in
  let ys := qy * s in
  let zs := qz * s in
  let wx := qw * xs in
  let wy := qw * ys in
  let wz := qw * zs in
  let xx := qx * xs in
  let xy := qx * ys in
  let xz := qx * zs in
  let yy := qy * ys in
  let yz := qy * zs in
  let zz := qz * zs in
  mkMat3 (mkVec3 (1 - (yy + zz)) (xy - wz) (xz + wy))
         (mkVec3 (xy + wz) (1 - (xx + zz)) (yz - wx))
         (mkVec3 (xz - wy) (yz + wx) (1 - (xx + yy))).





(** A drone low above the ground, moving, and the same drone at rest. *)
Definition low_drone : Drone :=
  mkDrone 7 (1 # 100) [1; 1; 1; 1] [0; 0; 0; 1]
    (mkVec3 0 0 (3 # 10)) (mkVec3 1 2 3) zero3 zero3.

Definition low_env : Env :=
  mkEnv low_drone [] true 2 0 [] (mkRng (fun _ => 1 # 2) 0).

Definition rest_drone : Drone :=
  mkDrone 7 (1 # 100) [1; 1; 1; 1] [0; 0; 0; 1]
    (mkVec3 0 0 1) zero3 zero3 zero3.

Definition rest_env : Env :=
  mkEnv rest_drone [] true 2 0 [] (mkRng (fun _ => 1 # 2) 0).

(** ** Statements about the wrapper *)

(** The two transforms on arrays of the length of the bounds, without the
    shape checks. *)
Definition normalized (lo hi a : list Q) : list Q :=
  map (fun r => 2 * r - 1) (map2 Qdiv (map2 Qminus a lo) (map2 Qminus hi lo)).

Definition denormalized (lo hi a : list Q) : list Q :=
  map2 Qplus
    (map2 Qmult (map (fun r => (r + 1) / 2) a) (map2 Qminus hi lo)) lo.

Definition unit_wrapper : Wrapper := mkWrapper [0; -1; 0] [1; 1; 4].

(** ** Training entry points *)

(** [sub in s] on Python strings. *)
Fixpoint contains (sub s : string) : bool :=
  String.prefix sub s
  || match s with
     | EmptyString => false
     | String _ s' => contains sub s'
     end.

(** The function [make_env] that [init_env] hands to the vectorized
    environments; calling it builds
    [NormalizeActionSpaceWrapper(gym.make(env_id))]. *)
Inductive EnvFn : Type := make_env (env_id : string).

(** What [init_env] returns: the wrapped environment itself, or a
    vectorized environment over a list of environment functions. *)
Inductive VecEnv : Type :=
| NormalizedEnv (env_id : string)
| DummyVecEnv (env_fns : list EnvFn)
| SubprocVecEnv (env_fns : list EnvFn).

(** The calls of the training script into gym, the learning library and
    the Python runtime; keyword arguments that are the same constant in
    every call ([verbose], [save_replay_buffer], [save_vecnormalize]) are
    left out, and so is the list that wraps the single callback. *)
Inductive TrainCall : Type :=
| gym_register (id entry_point : string) (max_episode_steps : Z)
| py_print (text : string)
| time_time
| gym_make (id : string)
| new_CheckpointCallback (save_freq : Z) (save_path name_prefix : string)
| new_PPO (policy : string) (env : VecEnv) (tensorboard_log : string)
| model_learn (total_timesteps : Z)
| model_save (path : string).

(** The script while it runs: the name of the module that defines the
    environment class, and the log. *)
Record Train : Type := mkTrain {
  module_name : string;
  train_calls : list TrainCall
}.

Definition train_emit (c : TrainCall) : M Train unit :=
  modify (fun t => mkTrain (module_name t) (train_calls t ++ [c])).

(** [init_env(n_envs, env_id)].  The result records which constructor is
    called on which environment functions; what the constructors of the
    vectorized environments do with them is not modelled. *)
Definition init_env (n_envs : Z) (env_id : string) : M Train VecEnv :=
  if (n_envs =? -1)%Z then
    train_emit (gym_make env_id) ;;
    ret (NormalizedEnv env_id)
  else if (n_envs =? 1)%Z then
    ret (DummyVecEnv (repeat (make_env env_id) (Z.to_nat n_envs)))
  else
    ret (SubprocVecEnv (repeat (make_env env_id) (Z.to_nat n_envs))).

Definition registered_id : string := "DroneHoverBulletEnvWithAdversary-v0".

(** The registration block that opens [test_env] and [start_training]. *)
Definition register_adversary (env_id : string) : M Train unit :=
  if contains "Adversary" env_id then
    assert (String.eqb env_id registered_id) ;;
    m <- gets module_name ;;
    train_emit
      (gym_register env_id (m ++ ":" ++ "DroneHoverBulletEnvWithAdversary")%string
         500)
  else ret tt.

(** [start_training(algo, env_id)] *)
Definition start_training (algo env_id : string) : M Train unit :=
  register_adversary env_id ;;
  train_emit (py_print ("env id: " ++ env_id ++ " registered!")%string) ;;
  train_emit time_time ;;
  env <- init_env 8 env_id ;;
  train_emit
    (new_CheckpointCallback 60 ("train_logs/" ++ env_id ++ "/")%string algo) ;;
  train_emit (new_PPO "MlpPolicy" env "./runs/phoenix") ;;
  train_emit (model_learn 40000) ;;
  train_emit (model_save (algo ++ "_phoenix")%string).

Definition script : Train := mkTrain "__main__" [].

(** ** Statements about the setup *)

(** The agent class that the setup constructs for a drone model. *)
Definition agent_class_of (model : string) : option string :=
  if String.eqb model "cf21x_bullet" then Some "CrazyFlieBulletAgent"%string
  else if String.eqb model "cf21x_sys_eq" then Some "CrazyFlieSimpleAgent"%string
  else if String.eqb model "cf21x_bullet_adversary"
       then Some "CrazyFlieBulletAgentWithAdversary"%string
  else None.

Definition adversary_physics : string := "PybulletPhysicsWithAdversary".

(** ** Statements about the control step *)

Definition is_observation (c : Call) : bool :=
  match c with env_compute_observation => true | _ => false end.

(** ** Statements about the disturbance bounds *)

(** The binary32 numbers nearest to 10^-3 and to 10^-4. *)
Definition dstb_bound_xy : Q := 8589935 # 8589934592.
Definition dstb_bound_z : Q := 13743895 # 137438953472.

(** An environment whose generator always draws the largest unit draw,
    [1 - 2^-53]. *)
Definition sharp_env : Env :=
  mkEnv hover_drone [] true 2 0 [] (mkRng (fun _ => 1 - Qpower 2 (-53)) 0).

(** * Properties *)

(** ** Rounding *)

Lemma rne_bounds (q : Q) : (Qfloor q <= rne q <= Qfloor q + 1)%Z.
Proof.
  unfold rne. destruct (Qcompare _ _); [destruct (Z.even _) | |]; lia.
Qed.

Lemma rne_mono (x y : Q) : x <= y -> (rne x <= rne y)%Z.
Proof.
  intros H. pose proof (Qfloor_resp_le _ _ H) as F.
  pose proof (rne_bounds x) as Bx. pose proof (rne_bounds y) as By.
  destruct (Z.eq_dec (Qfloor x) (Qfloor y)) as [E | N]; [| lia].
  unfold rne in *. rewrite <- E in *.
  destruct (Qcompare (x - inject_Z (Qfloor x)) (1 # 2)) eqn:Cx;
    destruct (Qcompare (y - inject_Z (Qfloor x)) (1 # 2)) eqn:Cy;
    try (destruct (Z.even (Qfloor x))); try lia;
    rewrite <- ?Qeq_alt, <- ?Qlt_alt, <- ?Qgt_alt in *; exfalso; lra.
Qed.

Lemma rne_inject (n : Z) : rne (inject_Z n) = n.
Proof.
  unfold rne. rewrite Qfloor_Z.
  replace (Qcompare (inject_Z n - inject_Z n) (1 # 2)) with Lt; [reflexivity |].
  symmetry. rewrite <- Qlt_alt. lra.
Qed.

Lemma pow2_pos (k : Z) : 0 < Qpower 2 k.
Proof. apply Qpower_0_lt. reflexivity. Qed.

Lemma pow2_add (a b : Z) : Qpower 2 (a + b) == Qpower 2 a * Qpower 2 b.
Proof. apply Qpower_plus. discriminate. Qed.

Lemma pow2_le (a b : Z) : (a <= b)%Z -> Qpower 2 a <= Qpower 2 b.
Proof. intros H. apply Qpower_le_compat_l; [exact H | discriminate]. Qed.

Lemma pow2_Z (k : Z) : (0 <= k)%Z -> Qpower 2 k == inject_Z (2 ^ k).
Proof. intros H. rewrite Zpower_Qpower by exact H. reflexivity. Qed.

Lemma ilog2_spec (x : Q) :
  0 < x -> Qpower 2 (ilog2 x) <= x /\ x < Qpower 2 (ilog2 x + 1).
Proof.
  intros Hx. destruct x as [n d]. unfold ilog2. cbn [Qnum Qden].
  assert (Hn : (0 < n)%Z).
  { unfold Qlt in Hx. cbn in Hx. lia. }
  set (a := Z.log2 n). set (b := Z.log2 (Zpos d)).
  destruct (Z.log2_spec n Hn) as [A1 A2]. fold a in A1, A2.
  destruct (Z.log2_spec (Zpos d) (eq_refl)) as [B1 B2]. fold b in B1, B2.
  assert (Ha : (0 <= a)%Z) by apply Z.log2_nonneg.
  assert (Hb : (0 <= b)%Z) by apply Z.log2_nonneg.
  assert (X : n # d == inject_Z n / inject_Z (Zpos d)) by apply Qmake_Qdiv.
  assert (Dp : 0 < inject_Z (Zpos d)) by reflexivity.
  assert (QA1 : Qpower 2 a <= inject_Z n).
  { rewrite pow2_Z by exact Ha. rewrite <- Zle_Qle. exact A1. }
  assert (QA2 : inject_Z n < Qpower 2 (a + 1)).
  { rewrite pow2_Z by lia. rewrite <- Zlt_Qlt. rewrite <- Z.add_1_r in A2. exact A2. }
  assert (QB1 : Qpower 2 b <= inject_Z (Zpos d)).
  { rewrite pow2_Z by exact Hb. rewrite <- Zle_Qle. exact B1. }
  assert (QB2 : inject_Z (Zpos d) < Qpower 2 (b + 1)).
  { rewrite pow2_Z by lia. rewrite <- Zlt_Qlt. rewrite <- Z.add_1_r in B2. exact B2. }
  assert (U : n # d < Qpower 2 (a - b + 1)).
  { rewrite X. apply Qlt_shift_div_r; [exact Dp |].
    apply Qlt_le_trans with (Qpower 2 (a + 1)); [exact QA2 |].
    replace (a + 1)%Z with ((a - b + 1) + b)%Z by lia.
    rewrite pow2_add. pose proof (pow2_pos (a - b + 1)) as P.
    apply Qmult_le_l; assumption. }
  assert (Lo : Qpower 2 (a - b - 1) <= n # d).
  { rewrite X. apply Qle_shift_div_l; [exact Dp |].
    apply Qle_trans with (Qpower 2 a); [| exact QA1].
    replace a with ((a - b - 1) + (b + 1))%Z at 2 by lia.
    rewrite pow2_add. pose proof (pow2_pos (a - b - 1)) as P.
    apply Qmult_le_l; [exact P |]. apply Qlt_le_weak. exact QB2. }
  destruct (Qle_bool (Qpower 2 (a - b)) (n # d)) eqn:E.
  - apply Qle_bool_iff in E. split; assumption.
  - split.
    + exact Lo.
    + replace (a - b - 1 + 1)%Z with (a - b)%Z by lia.
      apply Qnot_le_lt. intros C. apply Qle_bool_iff in C. congruence.
Qed.

Lemma ilog2_mono (x y : Q) : 0 < x -> x <= y -> (ilog2 x <= ilog2 y)%Z.
Proof.
  intros Hx Hxy.
  assert (Hy : 0 < y) by lra.
  destruct (ilog2_spec x Hx) as [X1 _].
  destruct (ilog2_spec y Hy) as [_ Y2].
  destruct (Z_le_gt_dec (ilog2 x) (ilog2 y)) as [L | G]; [exact L | exfalso].
  assert (P : Qpower 2 (ilog2 y + 1) <= Qpower 2 (ilog2 x)) by (apply pow2_le; lia).
  lra.
Qed.

Lemma round_pos_nonneg (p emin : Z) (x : Q) : 0 < x -> 0 <= round_pos p emin x.
Proof.
  intros Hx. unfold round_pos.
  set (u := Qpower 2 _). assert (U : 0 < u) by apply pow2_pos.
  assert (R : (0 <= rne (x / u))%Z).
  { rewrite <- (rne_inject 0). apply rne_mono.
    apply Qle_shift_div_l; [exact U |]. rewrite Qmult_0_l. apply Qlt_le_weak; exact Hx. }
  apply Qmult_le_0_compat; [| apply Qlt_le_weak; exact U].
  change 0 with (inject_Z 0). rewrite <- Zle_Qle. exact R.
Qed.

Lemma round_pos_upper (p emin e : Z) (x : Q) :
  (0 <= p)%Z -> 0 < x -> e = Z.max (ilog2 x) emin ->
  round_pos p emin x <= Qpower 2 (e + 1).
Proof.
  intros Hp Hx He. unfold round_pos. rewrite <- He.
  set (u := Qpower 2 (e - p + 1)). assert (U : 0 < u) by apply pow2_pos.
  destruct (ilog2_spec x Hx) as [_ X2].
  assert (X3 : x <= Qpower 2 (e + 1)).
  { apply Qlt_le_weak. apply Qlt_le_trans with (Qpower 2 (ilog2 x + 1)); [exact X2 |].
    apply pow2_le. lia. }
  assert (D : Qpower 2 (e + 1) == inject_Z (2 ^ p) * u).
  { rewrite <- pow2_Z by exact Hp. unfold u. rewrite <- pow2_add.
    replace (p + (e - p + 1))%Z with (e + 1)%Z by lia. reflexivity. }
  assert (R : (rne (x / u) <= 2 ^ p)%Z).
  { rewrite <- (rne_inject (2 ^ p)). apply rne_mono.
    apply Qle_shift_div_r; [exact U |]. rewrite <- D. exact X3. }
  rewrite D. apply Qmult_le_compat_r; [| apply Qlt_le_weak; exact U].
  rewrite <- Zle_Qle. exact R.
Qed.

Lemma round_pos_lower (p emin : Z) (x : Q) :
  (1 <= p)%Z -> 0 < x -> (emin <= ilog2 x)%Z ->
  Qpower 2 (ilog2 x) <= round_pos p emin x.
Proof.
  intros Hp Hx He. unfold round_pos.
  replace (Z.max (ilog2 x) emin) with (ilog2 x) by lia.
  set (e := ilog2 x).
  set (u := Qpower 2 (e - p + 1)). assert (U : 0 < u) by apply pow2_pos.
  destruct (ilog2_spec x Hx) as [X1 _]. fold e in X1.
  assert (D : Qpower 2 e == inject_Z (2 ^ (p - 1)) * u).
  { rewrite <- pow2_Z by lia. unfold u. rewrite <- pow2_add.
    replace (p - 1 + (e - p + 1))%Z with e by lia. reflexivity. }
  assert (R : (2 ^ (p - 1) <= rne (x / u))%Z).
  { rewrite <- (rne_inject (2 ^ (p - 1))) at 1. apply rne_mono.
    apply Qle_shift_div_l; [exact U |]. rewrite <- D. exact X1. }
  rewrite D. apply Qmult_le_compat_r; [| apply Qlt_le_weak; exact U].
  rewrite <- Zle_Qle. exact R.
Qed.

Lemma round_pos_mono (p emin : Z) (x y : Q) :
  (1 <= p)%Z -> 0 < x -> x <= y ->
  round_pos p emin x <= round_pos p emin y.
Proof.
  intros Hp Hx Hxy. assert (Hy : 0 < y) by lra.
  pose proof (ilog2_mono x y Hx Hxy) as M.
  destruct (Z.eq_dec (Z.max (ilog2 x) emin) (Z.max (ilog2 y) emin)) as [E | N].
  - unfold round_pos. rewrite <- E.
    set (u := Qpower 2 _). assert (U : 0 < u) by apply pow2_pos.
    apply Qmult_le_compat_r; [| apply Qlt_le_weak; exact U].
    rewrite <- Zle_Qle. apply rne_mono.
    apply Qle_shift_div_l; [exact U |].
    setoid_replace (x / u * u) with x by (field; lra). exact Hxy.
  - assert (L : (Z.max (ilog2 x) emin + 1 <= ilog2 y)%Z) by lia.
    assert (Ey : (emin <= ilog2 y)%Z) by lia.
    apply Qle_trans with (Qpower 2 (Z.max (ilog2 x) emin + 1)).
    + apply round_pos_upper; [lia | exact Hx | reflexivity].
    + apply Qle_trans with (Qpower 2 (ilog2 y)).
      * apply pow2_le. exact L.
      * apply round_pos_lower; assumption.
Qed.

Lemma np_round_mono (p emin : Z) (x y : Q) :
  (1 <= p)%Z -> x <= y -> np_round p emin x <= np_round p emin y.
Proof.
  intros Hp Hxy. unfold np_round.
  destruct (Qcompare x 0) eqn:Cx; destruct (Qcompare y 0) eqn:Cy;
    rewrite <- ?Qeq_alt, <- ?Qlt_alt, <- ?Qgt_alt in *;
    try (exfalso; lra).
  - apply Qle_refl.
  - apply round_pos_nonneg. exact Cy.
  - assert (0 <= round_pos p emin (- x)) by (apply round_pos_nonneg; lra). lra.
  - assert (round_pos p emin (- y) <= round_pos p emin (- x))
      by (apply round_pos_mono; [exact Hp | lra | lra]).
    lra.
  - assert (0 <= round_pos p emin (- x)) by (apply round_pos_nonneg; lra).
    assert (0 <= round_pos p emin y) by (apply round_pos_nonneg; lra).
    lra.
  - apply round_pos_mono; [exact Hp | exact Cx | exact Hxy].
Qed.

Lemma np_round_zero (p emin : Z) (x : Q) : x == 0 -> np_round p emin x = 0.
Proof.
  intros H. unfold np_round. rewrite Qeq_alt in H. rewrite H. reflexivity.
Qed.


Lemma float64_mono (x y : Q) : x <= y -> float64 x <= float64 y.
Proof. apply np_round_mono. lia. Qed.

Lemma float32_mono (x y : Q) : x <= y -> float32 x <= float32 y.
Proof. apply np_round_mono. lia. Qed.

(** ** Termination check *)

Lemma Qltb_lt (a b : Q) : Qltb a b = true <-> a < b.
Proof.
  unfold Qltb. rewrite negb_true_iff, <- not_true_iff_false, Qle_bool_iff.
  split; [apply Qnot_le_lt | apply Qlt_not_le].
Qed.

Lemma Qltb_irrefl (a b : Q) : a == b -> Qltb a b = false.
Proof.
  intros H. apply not_true_iff_false. rewrite Qltb_lt, H. apply Qlt_irrefl.
Qed.

Lemma truthy_nonzero (r : Q) : truthy r = true <-> ~ r == 0.
Proof.
  unfold truthy. rewrite negb_true_iff, <- not_true_iff_false, Qeq_bool_iff.
  tauto.
Qed.

Lemma truthy_opp (r : Q) : truthy (- r) = truthy r.
Proof.
  apply eq_true_iff_eq. rewrite !truthy_nonzero.
  split; intros H E; apply H; lra.
Qed.

(** The literal [0.2] as a binary64 number. *)
Lemma float64_0_2 : float64 0.2 = 7205759403792794 # 36028797018963968.
Proof. vm_compute. reflexivity. Qed.

Lemma np_any_select_cons (r : Q) (b : bool) (a : list Q) (m : list bool) :
  np_any (np_select (r :: a) (b :: m))
  = (b && truthy r) || np_any (np_select a m).
Proof. destruct b; reflexivity. Qed.

Lemma mask_and_truthy (b t : bool) : (b = true -> t = true) -> b && t = b.
Proof. destruct b, t; intuition discriminate. Qed.

Section TerminationFacts.
Context {L : Library}.

(** The verdict as the disjunction of the masked entries that are non-zero
    and of the altitude test. *)
Lemma compute_done_masks (d : Drone) :
  compute_done d
  = (Qltb (deg2rad 75) (Qabs (c0 (rpy d))) && truthy (c0 (rpy d))
     || Qltb (deg2rad 75) (Qabs (c1 (rpy d))) && truthy (c1 (rpy d)))
    || (Qltb 1000 (rad2deg (Qabs (c0 (rpy_dot d)))) && truthy (c0 (rpy_dot d))
        || Qltb 1000 (rad2deg (Qabs (c1 (rpy_dot d))))
           && truthy (c1 (rpy_dot d))
        || Qltb 1000 (rad2deg (Qabs (c2 (rpy_dot d))))
           && truthy (c2 (rpy_dot d)))
    || Qltb (c2 (xyz d)) (float64 0.2).
Proof.
  unfold compute_done, to_list, np_abs, np_gt.
  cbn [firstn map].
  rewrite !np_any_select_cons.
  cbn [np_select np_any existsb].
  rewrite !orb_false_r.
  match goal with
  | |- (if ?b then true else false) = _ =>
      replace (if b then true else false) with b by (destruct b; reflexivity)
  end.
  rewrite !orb_assoc. reflexivity.
Qed.

Hypothesis threshold_nonneg : 0 <= deg2rad 75.
Hypothesis rad2deg_of_zero : forall r : Q, r == 0 -> rad2deg r <= 1000.

(** An entry selected by the angle mask is non-zero. *)
Lemma angle_mask_truthy (r : Q) :
  Qltb (deg2rad 75) (Qabs r) = true -> truthy r = true.
Proof.
  rewrite Qltb_lt, truthy_nonzero. intros H E.
  assert (A : Qabs r == 0) by (rewrite E; reflexivity).
  rewrite A in H. lra.
Qed.

(** An entry selected by the rate mask is non-zero. *)
Lemma rate_mask_truthy (r : Q) :
  Qltb 1000 (rad2deg (Qabs r)) = true -> truthy r = true.
Proof.
  rewrite Qltb_lt, truthy_nonzero. intros H E.
  assert (A : Qabs r == 0) by (rewrite E; reflexivity).
  pose proof (rad2deg_of_zero _ A) as B. lra.
Qed.

Lemma compute_done_bools (d : Drone) :
  compute_done d
  = (Qltb (deg2rad 75) (Qabs (c0 (rpy d)))
     || Qltb (deg2rad 75) (Qabs (c1 (rpy d))))
    || (Qltb 1000 (rad2deg (Qabs (c0 (rpy_dot d))))
        || Qltb 1000 (rad2deg (Qabs (c1 (rpy_dot d))))
        || Qltb 1000 (rad2deg (Qabs (c2 (rpy_dot d)))))
    || Qltb (c2 (xyz d)) (float64 0.2).
Proof.
  rewrite compute_done_masks.
  rewrite !(mask_and_truthy _ _ (angle_mask_truthy _)).
  rewrite !(mask_and_truthy _ _ (rate_mask_truthy _)).
  reflexivity.
Qed.

End TerminationFacts.

(** C1, as the code has it: [compute_done] returns true exactly when the
    altitude is strictly below the binary64 number 0.2, or the roll or
    pitch magnitude is strictly above the library's [deg2rad(75)], or the
    magnitude of the roll, pitch or yaw rate, converted by the library's
    [rad2deg], is strictly above 1000; a state exactly at the altitude and
    angle thresholds, with no angular rate, is not done.  The conversions
    are those of the library, of which only this is used: [deg2rad(75)] is
    not negative and [rad2deg] of zero is not above 1000. *)
Theorem compute_done_rule :
  forall (L : Library) (d : Drone),
    0 <= deg2rad 75 ->
    (forall r : Q, r == 0 -> rad2deg r <= 1000) ->
    (compute_done d = true <-> done_rule d) /\
    compute_done
      (mkDrone (body_unique_id d) (DRAG_COEFF d) (x d) (quaternion d)
         (mkVec3 (c0 (xyz d)) (c1 (xyz d)) (float64 0.2)) (xyz_dot d)
         (mkVec3 (deg2rad 75) (- deg2rad 75) (c2 (rpy d))) zero3) = false.
Proof.
  intros L d Hd Hr. split.
  - rewrite (compute_done_bools Hd Hr). unfold done_rule.
    rewrite !orb_true_iff, !Qltb_lt. tauto.
  - rewrite (compute_done_bools Hd Hr).
    cbn [xyz rpy rpy_dot c0 c1 c2 zero3].
    assert (Z0 : Qltb 1000 (rad2deg (Qabs 0)) = false).
    { apply not_true_iff_false. rewrite Qltb_lt.
      assert (B : rad2deg (Qabs 0) <= 1000) by (apply Hr; reflexivity).
      lra. }
    rewrite Z0.
    rewrite (Qltb_irrefl (deg2rad 75) (Qabs (deg2rad 75)))
      by (symmetry; apply Qabs_pos; exact Hd).
    rewrite (Qltb_irrefl (deg2rad 75) (Qabs (- deg2rad 75)))
      by (rewrite Qabs_opp; symmetry; apply Qabs_pos; exact Hd).
    rewrite (Qltb_irrefl (float64 0.2) (float64 0.2)) by reflexivity.
    reflexivity.
Qed.

Lemma compute_done_rule_witness :
  0 <= @deg2rad lag_library 75 /\
  (forall r : Q, r == 0 -> @rad2deg lag_library r <= 1000) /\
  (@compute_done lag_library hover_drone = true
   <-> @done_rule lag_library hover_drone).
Proof.
  assert (Hd : 0 <= @deg2rad lag_library 75) by (vm_compute; discriminate).
  assert (Hr : forall r : Q, r == 0 -> @rad2deg lag_library r <= 1000).
  { intros r E. cbn [rad2deg lag_library]. unfold rad2deg_float64.
    assert (A : float64 (r * 180) = 0).
    { apply np_round_zero. rewrite E. reflexivity. }
    rewrite A. vm_compute. discriminate. }
  split; [exact Hd |]. split; [exact Hr |].
  exact (proj1 (compute_done_rule lag_library hover_drone Hd Hr)).
Defined.

(** C1, as stated, fails: with the binary64 conversions, a level drone at
    altitude 1 whose only motion is a yaw rate of 20 rad/s (about 1146
    degrees per second) is done, although its altitude, roll, pitch, roll
    rate and pitch rate are all within the thresholds. *)
Lemma compute_done_yaw_rate_counterexample :
  @compute_done lag_library yaw_spin_drone = true /\
  ~ @done_rule_without_yaw_rate lag_library yaw_spin_drone.
Proof.
  split; [vm_compute; reflexivity |].
  unfold done_rule_without_yaw_rate.
  intros [H | [[H | H] | [H | H]]]; vm_compute in H; discriminate H.
Qed.

(** ** The physics substep *)

Lemma new_calls_app (before t : list Call) : new_calls before (before ++ t) = t.
Proof.
  unfold new_calls. induction before as [| c before IH]; simpl; auto.
Qed.

Section SubstepFacts.
Context {L : Library}.

(** A substep with a disturbance of at least two components returns
    normally; its log grows by [ordered_calls] and the agent is the one the
    engine reports after the tick. *)
Lemma step_forward_run (e : Env) (action : list Q) (d0 d1 : Q) (rest : list Q) :
  exists e',
    step_forward action (d0 :: d1 :: rest) e = (e', inr tt) /\
    calls e' = calls e ++ ordered_calls e action d0 d1 /\
    drone e'
    = agent_update_information
        (calls e ++ removelast (ordered_calls e action d0 d1))
        (after_action e action) /\
    use_ground_effect e' = use_ground_effect e /\
    aggregate_phy_steps e' = aggregate_phy_steps e /\
    iteration e' = iteration e /\
    last_action e' = last_action e /\
    np_random e' = np_random e.
Proof.
  unfold step_forward, ordered_calls, after_action, apply_action, bind.
  destruct (agent_apply_action (drone e) action) as [d [mf zt]] eqn:Ea.
  cbn.
  destruct (ground_effect d mf) as [ge gef] eqn:Eg.
  destruct ge; cbn; destruct (use_ground_effect e) eqn:Eu; cbn;
    eexists; repeat split; cbn; repeat rewrite <- app_assoc; auto.
Qed.

Lemma step_forward_new_calls (e : Env) (action : list Q) (d0 d1 : Q)
      (rest : list Q) :
  new_calls (calls e) (calls (fst (step_forward action (d0 :: d1 :: rest) e)))
  = ordered_calls e action d0 d1.
Proof.
  destruct (step_forward_run e action d0 d1 rest) as [e' [E [C _]]].
  rewrite E. cbn [fst]. rewrite C. apply new_calls_app.
Qed.

Lemma ordered_calls_forces (e : Env) (action : list Q) (d0 d1 : Q) :
  forces_applied (ordered_calls e action d0 d1)
  = [drag_force (after_action e action)].
Proof.
  unfold ordered_calls, after_action.
  destruct (agent_apply_action (drone e) action) as [d [mf zt]].
  destruct (ground_effect d mf) as [ge gef].
  destruct (ge && use_ground_effect e); reflexivity.
Qed.

Lemma ordered_calls_torques (e : Env) (action : list Q) (d0 d1 : Q) :
  filter is_torque (ordered_calls e action d0 d1)
  = [applyExternalTorque (body_unique_id (after_action e action)) 4
       [d0; 0; 0] LINK_FRAME;
     applyExternalTorque (body_unique_id (after_action e action)) 4
       [0; d1; 0] LINK_FRAME].
Proof.
  unfold ordered_calls, after_action.
  destruct (agent_apply_action (drone e) action) as [d [mf zt]].
  destruct (ground_effect d mf) as [ge gef].
  destruct (ge && use_ground_effect e); reflexivity.
Qed.

Lemma ordered_calls_ticks (e : Env) (action : list Q) (d0 d1 : Q) :
  filter is_tick (ordered_calls e action d0 d1) = [stepSimulation].
Proof.
  unfold ordered_calls.
  destruct (agent_apply_action (drone e) action) as [d [mf zt]].
  destruct (ground_effect d mf) as [ge gef].
  destruct (ge && use_ground_effect e); reflexivity.
Qed.

Lemma ordered_calls_no_sample (e : Env) (action : list Q) (d0 d1 : Q) :
  filter is_sample (ordered_calls e action d0 d1) = [] /\
  filter is_step_forward (ordered_calls e action d0 d1) = [].
Proof.
  unfold ordered_calls.
  destruct (agent_apply_action (drone e) action) as [d [mf zt]].
  destruct (ground_effect d mf) as [ge gef].
  destruct (ge && use_ground_effect e); split; reflexivity.
Qed.

End SubstepFacts.

(** A disturbance with fewer than two components is outside what the
    environment passes; on the empty one the substep raises [IndexError]
    once the yaw torque is applied, before any tick. *)
Lemma step_forward_empty_disturbance :
  forall (L : Library) (e : Env) (action : list Q),
    let r := step_forward action [] e in
    snd r = inl IndexError /\
    filter is_tick (new_calls (calls e) (calls (fst r))) = [].
Proof.
  intros L e action r. subst r.
  unfold step_forward, apply_action, bind.
  destruct (agent_apply_action (drone e) action) as [d [mf zt]].
  cbn. split; [reflexivity |].
  repeat rewrite <- app_assoc. rewrite new_calls_app. reflexivity.
Qed.

(** C9: a substep makes its calls in the fixed order: motor model on the
    action, motor forces, yaw torque, the x- and y-axis disturbance torques,
    the drag force, the ground-effect forces exactly when the predicate
    holds and the flag is set, then the integration tick, then the refresh
    of the agent; it returns normally and the tick is the only one. *)
Theorem step_forward_order :
  forall (L : Library) (e : Env) (action : list Q) (d0 d1 : Q)
         (rest : list Q) (d : Drone) (motor_forces : list Q) (z_torque : Q)
         (apply_ground_eff : bool) (ge_forces : list Q),
    agent_apply_action (drone e) action = (d, (motor_forces, z_torque)) ->
    ground_effect d motor_forces = (apply_ground_eff, ge_forces) ->
    let r := step_forward action (d0 :: d1 :: rest) e in
    let t := new_calls (calls e) (calls (fst r)) in
    snd r = inr tt /\
    t = [drone_apply_action action;
         drone_apply_motor_forces motor_forces;
         drone_apply_z_torque z_torque;
         applyExternalTorque (body_unique_id d) 4 [d0; 0; 0] LINK_FRAME;
         applyExternalTorque (body_unique_id d) 4 [0; d1; 0] LINK_FRAME;
         drone_apply_force (drag_force d)]
        ++ (if apply_ground_eff && use_ground_effect e
            then [drone_apply_motor_forces ge_forces] else [])
        ++ [stepSimulation; drone_update_information] /\
    List.length (filter is_tick t) = 1%nat /\
    drone (fst r) = agent_update_information (calls e ++ removelast t) d.
Proof.
  intros L e action d0 d1 rest d mf zt ge gef Ea Eg r t.
  assert (Ht : t = ordered_calls e action d0 d1)
    by apply step_forward_new_calls.
  destruct (step_forward_run e action d0 d1 rest) as [e' [E [_ [D _]]]].
  subst r. rewrite E in *. cbn [fst snd] in *.
  split; [reflexivity |]. split; [| split].
  - rewrite Ht. unfold ordered_calls. rewrite Ea, Eg. reflexivity.
  - rewrite Ht, ordered_calls_ticks. reflexivity.
  - rewrite D, Ht. unfold after_action. rewrite Ea. reflexivity.
Qed.

Lemma step_forward_order_witness :
  let r := @step_forward lag_library [0; 0; 0; 0] [1; 2; 3] low_env in
  @agent_apply_action lag_library (drone low_env) [0; 0; 0; 0]
  = (fst (lag_apply_action low_drone [0; 0; 0; 0]),
     (lag [1; 1; 1; 1] [0; 0; 0; 0], np_sum (lag [1; 1; 1; 1] [0; 0; 0; 0]))) /\
  @ground_effect lag_library (fst (lag_apply_action low_drone [0; 0; 0; 0]))
    (lag [1; 1; 1; 1] [0; 0; 0; 0])
  = (true, lag [1; 1; 1; 1] [0; 0; 0; 0]) /\
  snd r = inr tt /\
  List.length (filter is_tick (new_calls (calls low_env) (calls (fst r))))
  = 1%nat.
Proof.
  destruct (step_forward_order lag_library low_env [0; 0; 0; 0] 1 2 [3]
              (fst (lag_apply_action low_drone [0; 0; 0; 0]))
              (lag [1; 1; 1; 1] [0; 0; 0; 0])
              (np_sum (lag [1; 1; 1; 1] [0; 0; 0; 0]))
              true
              (lag [1; 1; 1; 1] [0; 0; 0; 0])
              eq_refl eq_refl) as [H1 [_ [H3 _]]].
  repeat split; assumption.
Defined.

(** C2: in a substep the disturbance reaches the body only as two torques
    in the link frame of the centre-of-mass link, [dstb[0]] about x and
    [dstb[1]] about y, each with the other two components zero; these are
    the only torque calls on the engine client, and the outcome of the
    substep does not depend on [dstb[2]]. *)
Theorem disturbance_roll_pitch_only :
  forall (L : Library) (e : Env) (action : list Q) (d0 d1 d2 : Q),
    let r := step_forward action [d0; d1; d2] e in
    let id := body_unique_id (after_action e action) in
    filter is_torque (new_calls (calls e) (calls (fst r)))
    = [applyExternalTorque id 4 [d0; 0; 0] LINK_FRAME;
       applyExternalTorque id 4 [0; d1; 0] LINK_FRAME] /\
    forall d2' : Q, step_forward action [d0; d1; d2'] e = r.
Proof.
  intros L e action d0 d1 d2 r id. split.
  - subst r. rewrite step_forward_new_calls. apply ordered_calls_torques.
  - intros d2'. reflexivity.
Qed.

(** ** The drag force *)

Lemma v3eq_refl (u : vec3) : v3eq u u.
Proof. unfold v3eq. repeat split; reflexivity. Qed.

Lemma v3eq_sym (u v : vec3) : v3eq u v -> v3eq v u.
Proof. unfold v3eq. intros [H0 [H1 H2]]. repeat split; symmetry; assumption. Qed.

Lemma v3eq_trans (u v w : vec3) : v3eq u v -> v3eq v w -> v3eq u w.
Proof.
  unfold v3eq. intros [H0 [H1 H2]] [K0 [K1 K2]].
  repeat split; etransitivity; eassumption.
Qed.

Lemma np_sum_fold_right (a : list Q) : np_sum a == fold_right Qplus 0 a.
Proof.
  unfold np_sum.
  assert (G : forall acc, fold_left Qplus a acc == acc + fold_right Qplus 0 a).
  { induction a as [| r a IH]; intros acc; simpl.
    - ring.
    - rewrite IH. ring. }
  rewrite G. ring.
Qed.

Lemma rpm_sum (xs : list Q) :
  fold_right Qplus 0
    (map (fun r => 2 * np_pi * r / 60) (map (fun xi => xi ^ 2 * 25000) xs))
  == fold_right Qplus 0
       (map (fun r => 2 * np_pi * r / 60) (map (fun xi => 25000 * xi ^ 2) xs)).
Proof.
  induction xs as [| xi xs IH]; cbn [map fold_right].
  - reflexivity.
  - rewrite IH. field.
Qed.

Section DragFacts.
Context {L : Library}.

Lemma drag_factors_spec (d : Drone) :
  drag_factors d
  == drag_factor_of (DRAG_COEFF d) (map (fun xi => 25000 * xi ^ 2) (x d)).
Proof.
  unfold drag_factors, drag_factor_of, rpm_of.
  rewrite np_sum_fold_right, rpm_sum. ring.
Qed.

(** Scaling before or after the rotation gives the same vector. *)
Lemma np_dot_scale (m : mat3) (s s' : Q) (v : vec3) :
  s == s' -> v3eq (np_dot m (scale s v)) (scale s' (np_dot m v)).
Proof.
  intros E. unfold v3eq, np_dot, scale, dot3. cbn [c0 c1 c2].
  rewrite E. repeat split; ring.
Qed.

Lemma drag_force_spec (d : Drone) :
  v3eq (drag_force d)
       (rotated_scaled_drag d (map (fun xi => 25000 * xi ^ 2) (x d))).
Proof.
  unfold drag_force, rotated_scaled_drag.
  apply np_dot_scale, drag_factors_spec.
Qed.

Lemma drag_force_at_rest (d : Drone) :
  v3eq (xyz_dot d) zero3 -> v3eq (drag_force d) zero3.
Proof.
  unfold drag_force, v3eq, np_dot, scale, dot3, zero3. cbn [c0 c1 c2].
  intros [H0 [H1 H2]]. rewrite H0, H1, H2. repeat split; ring.
Qed.

End DragFacts.

(** C6: when the linear velocity read by the substep is the zero vector,
    the one force the substep applies through [apply_force] is the zero
    vector, whatever the motor state, the drag coefficient and the
    orientation are. *)
Theorem drag_zero_at_rest :
  forall (L : Library) (e : Env) (action : list Q) (d0 d1 : Q)
         (rest : list Q),
    v3eq (xyz_dot (after_action e action)) zero3 ->
    exists f : vec3,
      forces_applied
        (new_calls (calls e)
           (calls (fst (step_forward action (d0 :: d1 :: rest) e)))) = [f] /\
      v3eq f zero3.
Proof.
  intros L e action d0 d1 rest H.
  exists (drag_force (after_action e action)). split.
  - rewrite step_forward_new_calls. apply ordered_calls_forces.
  - apply drag_force_at_rest, H.
Qed.

Lemma drag_zero_at_rest_witness :
  v3eq (xyz_dot (@after_action lag_library rest_env [1; 1; 1; 1])) zero3 /\
  exists f : vec3,
    forces_applied
      (new_calls (calls rest_env)
         (calls (fst (@step_forward lag_library [1; 1; 1; 1] [1; 2; 3]
                        rest_env)))) = [f] /\
    v3eq f zero3.
Proof.
  assert (H : v3eq (xyz_dot (@after_action lag_library rest_env [1; 1; 1; 1]))
                   zero3) by (repeat split; reflexivity).
  split; [exact H |].
  exact (drag_zero_at_rest lag_library rest_env [1; 1; 1; 1] 1 2 [3] H).
Defined.

(** The matrix of a quaternion takes body coordinates to world
    coordinates: for the turn about the vertical axis with cosine 7/25 and
    sine 24/25 the x-axis of the body points along (7/25, 24/25, 0) in the
    world; the transposed matrix is the matrix of the opposite turn. *)
Lemma quaternion_matrix_body_to_world :
  v3eq (np_dot (quaternion_matrix 0 0 (3 # 5) (4 # 5)) (mkVec3 1 0 0))
       (mkVec3 (7 # 25) (24 # 25) 0) /\
  forall qx qy qz qw : Q,
    ~ qx * qx + qy * qy + qz * qz + qw * qw == 0 ->
    forall v : vec3,
      v3eq (np_dot (transpose (quaternion_matrix qx qy qz qw)) v)
           (np_dot (quaternion_matrix (- qx) (- qy) (- qz) qw) v).
Proof.
  split.
  - repeat split; vm_compute; reflexivity.
  - intros qx qy qz qw Hd v.
    assert (Hd' : ~ - qx * - qx + - qy * - qy + - qz * - qz + qw * qw == 0).
    { intros E. apply Hd. rewrite <- E. ring. }
    unfold v3eq, np_dot, transpose, quaternion_matrix, dot3.
    cbn [c0 c1 c2 row0 row1 row2].
    repeat split; field; assumption.
Qed.




(** ** The control step *)

(** A sample of the disturbance space has three components; drawing it
    logs one sampling call and moves the generator past three draws. *)
Lemma dstb_gen_sample (x : list Q) (e : Env) :
  exists d0 d1 d2 : Q,
    dstb_gen x e
    = (log dstb_space_sample
         (set_np_random
            (mkRng (draws (np_random e)) (cursor (np_random e) + 3)) e),
       inr [d0; d1; d2]).
Proof.
  unfold dstb_gen, Box_sample, dstb_space, Box_float32.
  cbn [low high map uniform List.length].
  do 3 eexists. reflexivity.
Qed.

Section StepFacts.
Context {L : Library}.

Lemma substep_run (e : Env) (action : list Q) (d0 d1 : Q) (rest : list Q) :
  exists e',
    substep action (d0 :: d1 :: rest) e = (e', inr tt) /\
    calls e'
    = calls e
      ++ physics_step_forward action (d0 :: d1 :: rest)
         :: ordered_calls e action d0 d1 ++ [env_compute_observation] /\
    aggregate_phy_steps e' = aggregate_phy_steps e /\
    iteration e' = (iteration e + 1)%Z /\
    np_random e' = np_random e.
Proof.
  unfold substep, bind at 1.
  cbn [emit modify].
  destruct (step_forward_run
              (log (physics_step_forward action (d0 :: d1 :: rest)) e)
              action d0 d1 rest)
    as [e1 [E [C [_ [_ [A [I [_ R]]]]]]]].
  unfold bind at 1. rewrite E.
  eexists. split; [reflexivity |].
  cbn. rewrite C, A, I, R. cbn.
  repeat split.
  repeat rewrite <- app_assoc. reflexivity.
Qed.

Lemma loop_run (action : list Q) (d0 d1 : Q) (rest : list Q) (n : nat) :
  forall e : Env,
  exists e' t,
    for_range n (substep action (d0 :: d1 :: rest)) e = (e', inr tt) /\
    calls e' = calls e ++ t /\
    filter is_step_forward t
    = repeat (physics_step_forward action (d0 :: d1 :: rest)) n /\
    filter is_sample t = [] /\
    filter is_tick t = repeat stepSimulation n /\
    iteration e' = (iteration e + Z.of_nat n)%Z /\
    np_random e' = np_random e.
Proof.
  induction n as [| n IH]; intros e.
  - exists e, []. cbn. rewrite app_nil_r, Z.add_0_r. repeat split.
  - destruct (substep_run e action d0 d1 rest) as [e1 [E [C [_ [I R]]]]].
    destruct (IH e1) as [e2 [t [E2 [C2 [F [S [T [I2 R2]]]]]]]].
    exists e2,
      (physics_step_forward action (d0 :: d1 :: rest)
       :: (ordered_calls e action d0 d1 ++ [env_compute_observation]) ++ t).
    cbn [for_range]. unfold bind at 1. rewrite E, E2.
    destruct (ordered_calls_no_sample e action d0 d1) as [NS NF].
    split; [reflexivity |]. split; [| split; [| split; [| split; [| split]]]].
    + rewrite C2, C. rewrite <- app_assoc. reflexivity.
    + cbn [filter is_step_forward]. rewrite !filter_app, NF, F. reflexivity.
    + cbn [filter is_sample]. rewrite !filter_app, NS, S. reflexivity.
    + cbn [filter is_tick].
      rewrite !filter_app, ordered_calls_ticks, T. reflexivity.
    + rewrite I2, I. lia.
    + rewrite R2, R. reflexivity.
Qed.

End StepFacts.

(** C3: a control step samples the disturbance once, before the loop, and
    then calls [physics.step_forward] exactly [aggregate_phy_steps] times,
    every time with the action of the step and with that one sample. *)
Theorem step_samples_once_and_repeats :
  forall (L : Library) (e : Env) (action : list Q),
    (0 <= aggregate_phy_steps e)%Z ->
    exists (e' : Env) (out : Observation * Q * bool * InfoDict)
           (dstb : list Q) (t : list Call),
      step action e = (e', inr out) /\
      snd (dstb_gen (agent_get_state (drone e)) e) = inr dstb /\
      calls e' = calls e ++ dstb_space_sample :: t /\
      filter is_sample t = [] /\
      filter is_step_forward t
      = repeat (physics_step_forward action dstb)
          (Z.to_nat (aggregate_phy_steps e)) /\
      Z.of_nat (List.length (filter is_step_forward t))
      = aggregate_phy_steps e /\
      cursor (np_random e') = (cursor (np_random e) + 3)%nat.
Proof.
  intros L e action Hn.
  destruct (dstb_gen_sample (agent_get_state (drone e)) e)
    as [d0 [d1 [d2 E0]]].
  set (u := draws (np_random e)) in *. set (k := cursor (np_random e)) in *.
  set (e1 := log dstb_space_sample
               (set_np_random (mkRng u (k + 3)) e)) in *.
  destruct (loop_run action d0 d1 [d2] (Z.to_nat (aggregate_phy_steps e)) e1)
    as [e2 [t [E [C [F [S [_ [_ R]]]]]]]].
  eexists. eexists. exists [d0; d1; d2].
  exists (t ++ [env_compute_history; env_compute_reward action;
                env_compute_info]).
  split; [| split; [| split; [| split; [| split; [| split]]]]].
  - unfold step, bind at 1. cbn [gets].
    unfold bind at 1.
    rewrite E0.
    unfold bind at 1. cbn [gets].
    change (aggregate_phy_steps e1) with (aggregate_phy_steps e).
    unfold bind at 1. rewrite E.
    reflexivity.
  - rewrite E0. reflexivity.
  - cbn. rewrite C. cbn. repeat rewrite <- app_assoc. reflexivity.
  - rewrite filter_app, S. reflexivity.
  - rewrite filter_app, F. cbn. apply app_nil_r.
  - rewrite filter_app, F. cbn. rewrite app_nil_r, repeat_length. lia.
  - cbn. rewrite R. cbn. subst k. lia.
Qed.

Lemma step_samples_once_and_repeats_witness :
  (0 <= aggregate_phy_steps hover_env)%Z /\
  exists (e' : Env) (out : unit * Q * bool * unit)
         (dstb : list Q) (t : list Call),
    @step lag_library [0; 0; 0; 0] hover_env = (e', inr out) /\
    snd (dstb_gen (@agent_get_state lag_library (drone hover_env)) hover_env)
    = inr dstb /\
    calls e' = calls hover_env ++ dstb_space_sample :: t /\
    filter is_sample t = [] /\
    filter is_step_forward t
    = repeat (physics_step_forward [0; 0; 0; 0] dstb)
        (Z.to_nat (aggregate_phy_steps hover_env)) /\
    Z.of_nat (List.length (filter is_step_forward t))
    = aggregate_phy_steps hover_env /\
    cursor (np_random e') = (cursor (np_random hover_env) + 3)%nat.
Proof.
  assert (H : (0 <= aggregate_phy_steps hover_env)%Z) by (simpl; lia).
  split; [exact H |].
  exact (step_samples_once_and_repeats lag_library hover_env [0; 0; 0; 0] H).
Defined.

(** ** The disturbance generator *)

(** The stored bounds of the disturbance space. *)
Lemma dstb_space_bounds :
  dstb_space
  = mkBox [- dstb_bound_xy; - dstb_bound_xy; - dstb_bound_z]
          [dstb_bound_xy; dstb_bound_xy; dstb_bound_z].
Proof. vm_compute. reflexivity. Qed.

(** One coordinate of a sample stays within its bounds when the bounds are
    numbers of both float types and their difference is computed without
    error. *)
Lemma sample_within (l h u : Q) :
  0 <= u <= 1 ->
  0 <= float64 (h - l) ->
  float64 (float64 (h - l)) <= float64 (h - l) ->
  l <= float64 l ->
  float64 (l + float64 (h - l)) <= h ->
  l <= float32 l ->
  float32 h <= h ->
  l <= float32 (float64 (l + float64 (float64 (h - l) * u))) <= h.
Proof.
  intros [U0 U1] W0 Ww Ll Hs Ll32 Hh32.
  set (w := float64 (h - l)) in *.
  assert (T0 : 0 <= float64 (w * u)).
  { assert (Z : float64 0 = 0) by reflexivity. rewrite <- Z.
    apply float64_mono. apply Qmult_le_0_compat; assumption. }
  assert (T1 : float64 (w * u) <= w).
  { apply Qle_trans with (float64 w); [| exact Ww].
    apply float64_mono.
    assert (P : 0 <= w * (1 - u)) by (apply Qmult_le_0_compat; lra).
    lra. }
  set (t := float64 (w * u)) in *.
  assert (S0 : l <= float64 (l + t)).
  { apply Qle_trans with (float64 l); [exact Ll |].
    apply float64_mono. lra. }
  assert (S1 : float64 (l + t) <= h).
  { apply Qle_trans with (float64 (l + w)); [| exact Hs].
    apply float64_mono. lra. }
  split.
  - apply Qle_trans with (float32 l); [exact Ll32 |].
    apply float32_mono. exact S0.
  - apply Qle_trans with (float32 h); [| exact Hh32].
    apply float32_mono. exact S1.
Qed.

(** C4, as the code has it: with unit draws in [0,1], every vector
    returned by the disturbance generator has three components, each
    within the symmetric bound that the [float32] space stores, bounds
    included: the binary32 number nearest to 10^-3 for x and y, which is
    above 10^-3, and the binary32 number nearest to 10^-4 for z, which is
    below 10^-4. *)
Theorem dstb_gen_within_bounds :
  forall (x : list Q) (e : Env),
    (forall k : nat, 0 <= draws (np_random e) k <= 1) ->
    (exists d0 d1 d2 : Q,
        snd (dstb_gen x e) = inr [d0; d1; d2] /\
        (- dstb_bound_xy <= d0 <= dstb_bound_xy) /\
        (- dstb_bound_xy <= d1 <= dstb_bound_xy) /\
        (- dstb_bound_z <= d2 <= dstb_bound_z)) /\
    high dstb_space = [dstb_bound_xy; dstb_bound_xy; dstb_bound_z] /\
    low dstb_space = [- dstb_bound_xy; - dstb_bound_xy; - dstb_bound_z] /\
    dstb_bound_xy = float32 (py_pow10_neg 3) /\
    dstb_bound_z = float32 (py_pow10_neg 4) /\
    Qpower 10 (-3) < dstb_bound_xy /\
    dstb_bound_z < Qpower 10 (-4).
Proof.
  intros x e U. split.
  - unfold dstb_gen, Box_sample. rewrite dstb_space_bounds.
    cbn [snd low high uniform].
    do 3 eexists. split; [reflexivity |].
    split; [| split];
      (apply sample_within;
       [apply U | vm_compute; discriminate | vm_compute; discriminate
        | vm_compute; discriminate | vm_compute; discriminate
        | vm_compute; discriminate | vm_compute; discriminate]).
  - rewrite dstb_space_bounds. cbn [low high].
    repeat split; vm_compute; reflexivity.
Qed.

Lemma dstb_gen_within_bounds_witness :
  (forall k : nat, 0 <= draws (np_random hover_env) k <= 1) /\
  exists d0 d1 d2 : Q,
    snd (dstb_gen [0; 0; 1] hover_env) = inr [d0; d1; d2] /\
    (- dstb_bound_xy <= d0 <= dstb_bound_xy) /\
    (- dstb_bound_xy <= d1 <= dstb_bound_xy) /\
    (- dstb_bound_z <= d2 <= dstb_bound_z).
Proof.
  assert (U : forall k : nat, 0 <= draws (np_random hover_env) k <= 1)
    by (intros k; simpl; split; discriminate).
  split; [exact U |].
  exact (proj1 (dstb_gen_within_bounds [0; 0; 1] hover_env U)).
Defined.

(** C4, as stated, fails: the bound that the space stores for x is above
    10^-3, and with the largest unit draw, [1 - 2^-53], the sample is that
    bound, so the x component of the disturbance is above 10^-3. *)
Lemma dstb_gen_above_decimal_bound :
  (forall k : nat, 0 <= draws (np_random sharp_env) k < 1) /\
  exists d0 d1 d2 : Q,
    snd (dstb_gen [0; 0; 1] sharp_env) = inr [d0; d1; d2] /\
    ~ (- Qpower 10 (-3) <= d0 <= Qpower 10 (-3)).
Proof.
  split.
  - intros k. split; vm_compute; [discriminate | reflexivity].
  - exists dstb_bound_xy, dstb_bound_xy, dstb_bound_z.
    split; [vm_compute; reflexivity |].
    intros [_ H]. vm_compute in H. apply H. reflexivity.
Qed.

(** C5: the disturbance generator ignores its argument: on the same
    environment, and so on the same random draws, two states give the same
    disturbance and leave the same environment behind. *)
Theorem dstb_gen_ignores_state :
  forall (x1 x2 : list Q) (e : Env), dstb_gen x1 e = dstb_gen x2 e.
Proof.
  intros x1 x2 e. unfold dstb_gen. reflexivity.
Qed.

(** ** The action-space wrapper *)

Lemma map2_length (f : Q -> Q -> Q) (a b : list Q) :
  List.length a = List.length b ->
  List.length (map2 f a b) = List.length a.
Proof.
  revert b. induction a as [| r a IH]; intros [| t b] H; simpl in *;
    try discriminate; auto.
Qed.

Lemma np_binop_same_shape {S : Type} (f : Q -> Q -> Q) (a b : list Q) (s : S) :
  List.length a = List.length b -> np_binop f a b s = (s, inr (map2 f a b)).
Proof.
  intros H. unfold np_binop. rewrite H, Nat.eqb_refl. reflexivity.
Qed.

Lemma width_length (lo hi : list Q) :
  List.length lo = List.length hi ->
  List.length (map2 Qminus hi lo) = List.length lo.
Proof. intros H. rewrite map2_length; congruence. Qed.

Lemma scaled_length (lo hi a : list Q) :
  List.length lo = List.length hi -> List.length a = List.length lo ->
  List.length
    (map2 Qmult (map (fun r => (r + 1) / 2) a) (map2 Qminus hi lo))
  = List.length lo.
Proof.
  intros Hb Ha. pose proof (width_length lo hi Hb) as Hw.
  rewrite map2_length; rewrite length_map; congruence.
Qed.

Lemma shifted_length (lo a : list Q) :
  List.length a = List.length lo ->
  List.length (map2 Qminus a lo) = List.length lo.
Proof. intros H. rewrite map2_length; congruence. Qed.

Lemma normalize_action_run (w : Wrapper) (a : list Q) :
  List.length (action_space_low w) = List.length (action_space_high w) ->
  List.length a = List.length (action_space_low w) ->
  normalize_action a w
  = (w, inr (normalized (action_space_low w) (action_space_high w) a)).
Proof.
  intros Hb Ha. unfold normalize_action, normalized, bind, gets.
  rewrite (np_binop_same_shape Qminus a _ w Ha).
  rewrite (np_binop_same_shape Qminus _ _ w (eq_sym Hb)).
  rewrite np_binop_same_shape; [reflexivity |].
  rewrite shifted_length, width_length; auto.
Qed.

Lemma denormalize_action_run (w : Wrapper) (a : list Q) :
  List.length (action_space_low w) = List.length (action_space_high w) ->
  List.length a = List.length (action_space_low w) ->
  denormalize_action a w
  = (w, inr (denormalized (action_space_low w) (action_space_high w) a)).
Proof.
  intros Hb Ha. unfold denormalize_action, denormalized, bind, gets.
  rewrite (np_binop_same_shape Qminus _ _ w (eq_sym Hb)).
  rewrite np_binop_same_shape.
  - rewrite np_binop_same_shape; [reflexivity |].
    apply scaled_length; assumption.
  - rewrite length_map, width_length; assumption.
Qed.

Lemma normalized_length (lo hi a : list Q) :
  List.length lo = List.length hi -> List.length a = List.length lo ->
  List.length (normalized lo hi a) = List.length lo.
Proof.
  intros Hb Ha. unfold normalized.
  rewrite length_map, map2_length; rewrite shifted_length; auto.
  rewrite width_length; auto.
Qed.
















(** ** Simulation setup *)

(** C10: for a drone model other than the three known names,
    [_setup_simulation] raises [NotImplementedError]; up to then it has set
    the search path and loaded the plane and the room, it has constructed
    neither an agent nor a physics object, and it has not touched the
    physics module. *)
Theorem setup_unknown_model_raises :
  forall (physics : string) (s : Setup),
    drone_model s <> "cf21x_bullet"%string ->
    drone_model s <> "cf21x_sys_eq"%string ->
    drone_model s <> "cf21x_bullet_adversary"%string ->
    let r := _setup_simulation physics s in
    snd r = inl NotImplementedError /\
    new_calls (setup_calls s) (setup_calls (fst r))
    = [setAdditionalSearchPath; loadURDF self_bc "plane.urdf" false;
       loadURDF pb_module (path_join (assets_path s) "room_10x10.urdf") true]
    /\
    physics_object (fst r) = physics_object s /\
    agent (fst r) = agent s /\
    phoenix_physics (fst r) = phoenix_physics s.
Proof.
  intros physics s H1 H2 H3 r. subst r.
  apply String.eqb_neq in H1, H2, H3.
  unfold _setup_simulation, bind. cbn.
  rewrite H1, H2, H3. cbn.
  repeat split.
  repeat rewrite <- app_assoc. apply new_calls_app.
Qed.

Lemma setup_unknown_model_raises_witness :
  let r := _setup_simulation "PybulletPhysicsWithAdversary"
             (fresh_setup "cf21x") in
  snd r = inl NotImplementedError /\
  new_calls (setup_calls (fresh_setup "cf21x")) (setup_calls (fst r))
  = [setAdditionalSearchPath; loadURDF self_bc "plane.urdf" false;
     loadURDF pb_module "assets/room_10x10.urdf" true] /\
  physics_object (fst r) = None /\
  agent (fst r) = None /\
  phoenix_physics (fst r) = phoenix_physics (fresh_setup "cf21x").
Proof.
  apply (setup_unknown_model_raises "PybulletPhysicsWithAdversary"
           (fresh_setup "cf21x")); simpl; discriminate.
Defined.

(** X23: with the configuration that [__init__] passes, and whatever the
    physics module holds, the setup returns normally and constructs the
    adversary agent and the adversary physics, which is what [step_forward]
    relies on when it calls [apply_x_torque] and [apply_y_torque]. *)
Lemma setup_adversary_configuration :
  forall s : Setup,
    drone_model s = "cf21x_bullet_adversary"%string ->
    let r := _setup_simulation "PybulletPhysicsWithAdversary" s in
    snd r = inr tt /\
    agent (fst r) = Some "CrazyFlieBulletAgentWithAdversary"%string /\
    physics_object (fst r) = Some "PybulletPhysicsWithAdversary"%string.
Proof.
  intros s H r. subst r.
  unfold _setup_simulation, bind. cbn. rewrite H. cbn.
  repeat split.
Qed.

(** ** More on the action-space wrapper *)

Lemma normalized_at_bounds (lo hi : list Q) :
  Forall2 Qlt lo hi ->
  normalized lo hi lo =v= repeat (-1) (List.length lo) /\
  normalized lo hi hi =v= repeat 1 (List.length lo).
Proof.
  unfold veq.
  induction 1 as [| l h lo hi Hlt Hrest [IHl IHh]].
  - split; constructor.
  - unfold normalized in *. cbn [List.length repeat map map2].
    split; constructor; try assumption; field; lra.
Qed.

(** X1: when every low bound is strictly below its high bound,
    [normalize_action] takes the low bounds to the vector of -1 and the high
    bounds to the vector of +1. *)
Theorem normalize_action_at_bounds :
  forall w : Wrapper,
    Forall2 Qlt (action_space_low w) (action_space_high w) ->
    exists l h : list Q,
      normalize_action (action_space_low w) w = (w, inr l) /\
      l =v= repeat (-1) (List.length (action_space_low w)) /\
      normalize_action (action_space_high w) w = (w, inr h) /\
      h =v= repeat 1 (List.length (action_space_low w)).
Proof.
  intros w Hlt. pose proof (Forall2_length Hlt) as Hb.
  destruct (normalized_at_bounds _ _ Hlt) as [El Eh].
  do 2 eexists.
  split; [apply normalize_action_run; [assumption | reflexivity] |].
  split; [exact El |].
  split; [apply normalize_action_run; [assumption | congruence] |].
  exact Eh.
Qed.

Lemma normalize_action_at_bounds_witness :
  Forall2 Qlt (action_space_low unit_wrapper)
    (action_space_high unit_wrapper) /\
  exists l h : list Q,
    normalize_action (action_space_low unit_wrapper) unit_wrapper
    = (unit_wrapper, inr l) /\
    l =v= repeat (-1) (List.length (action_space_low unit_wrapper)) /\
    normalize_action (action_space_high unit_wrapper) unit_wrapper
    = (unit_wrapper, inr h) /\
    h =v= repeat 1 (List.length (action_space_low unit_wrapper)).
Proof.
  assert (Hlt : Forall2 Qlt (action_space_low unit_wrapper)
                  (action_space_high unit_wrapper))
    by (repeat constructor).
  split; [exact Hlt |].
  exact (normalize_action_at_bounds unit_wrapper Hlt).
Defined.

Lemma np_binop_shape_error {S : Type} (f : Q -> Q -> Q) (a b : list Q) (s : S) :
  List.length a <> List.length b ->
  List.length a <> 1%nat -> List.length b <> 1%nat ->
  np_binop f a b s = (s, inl ValueError).
Proof.
  intros Hab Ha Hb. unfold np_binop.
  apply Nat.eqb_neq in Hab. rewrite Hab.
  destruct a as [| r [| r' a]]; destruct b as [| t [| t' b]];
    simpl in *; try reflexivity; congruence.
Qed.

Lemma map_as_map2_repeat (f : Q -> Q -> Q) (r : Q) (b : list Q) :
  map (f r) b = map2 f (repeat r (List.length b)) b.
Proof.
  induction b as [| t b IH]; simpl; [reflexivity | rewrite IH; reflexivity].
Qed.

Lemma np_binop_scalar_left {S : Type} (f : Q -> Q -> Q) (r : Q) (b : list Q)
      (s : S) :
  np_binop f [r] b s = (s, inr (map2 f (repeat r (List.length b)) b)).
Proof.
  unfold np_binop.
  destruct (Nat.eqb (List.length [r]) (List.length b)) eqn:E.
  - apply Nat.eqb_eq in E. rewrite <- E. reflexivity.
  - rewrite <- map_as_map2_repeat. reflexivity.
Qed.

Lemma map2_repeat_length (f : Q -> Q -> Q) (r : Q) (b : list Q) :
  List.length (map2 f (repeat r (List.length b)) b) = List.length b.
Proof.
  rewrite map2_length; rewrite repeat_length; reflexivity.
Qed.

(** X4: when the action has neither the length of the bounds nor length
    one, and the bounds do not have length one, both transforms raise
    [ValueError] and leave the wrapper as it was. *)
Theorem wrapper_shape_mismatch :
  forall (w : Wrapper) (a : list Q),
    List.length (action_space_low w) = List.length (action_space_high w) ->
    List.length a <> List.length (action_space_low w) ->
    List.length a <> 1%nat ->
    List.length (action_space_low w) <> 1%nat ->
    normalize_action a w = (w, inl ValueError) /\
    denormalize_action a w = (w, inl ValueError).
Proof.
  intros w a Hb Ha Ha1 Hl1. split.
  - unfold normalize_action, bind, gets.
    rewrite (np_binop_shape_error Qminus a _ w Ha Ha1 Hl1). reflexivity.
  - unfold denormalize_action, bind, gets.
    rewrite (np_binop_same_shape Qminus _ _ w (eq_sym Hb)).
    rewrite np_binop_shape_error; [reflexivity | | |].
    + rewrite length_map, width_length; assumption.
    + rewrite length_map. assumption.
    + rewrite width_length; assumption.
Qed.

Lemma wrapper_shape_mismatch_witness :
  normalize_action [0; 0] unit_wrapper = (unit_wrapper, inl ValueError) /\
  denormalize_action [0; 0] unit_wrapper = (unit_wrapper, inl ValueError).
Proof.
  apply (wrapper_shape_mismatch unit_wrapper [0; 0]);
    simpl; try reflexivity; discriminate.
Defined.

(** X5: a one-component action is broadcast against the bounds: both
    transforms return what they return on the vector that repeats the
    component once per bound, so the result has the length of the bounds
    and not of the action. *)
Theorem wrapper_broadcasts_scalar_action :
  forall (w : Wrapper) (r : Q),
    List.length (action_space_low w) = List.length (action_space_high w) ->
    let n := List.length (action_space_low w) in
    normalize_action [r] w = normalize_action (repeat r n) w /\
    denormalize_action [r] w = denormalize_action (repeat r n) w /\
    exists b : list Q,
      normalize_action [r] w = (w, inr b) /\ List.length b = n.
Proof.
  intros w r Hb n.
  assert (Hn : normalize_action [r] w
               = (w, inr (normalized (action_space_low w)
                            (action_space_high w) (repeat r n)))).
  { unfold normalize_action, normalized, bind, gets.
    rewrite np_binop_scalar_left.
    rewrite (np_binop_same_shape Qminus _ _ w (eq_sym Hb)).
    rewrite np_binop_same_shape; [reflexivity |].
    rewrite map2_repeat_length, width_length; auto. }
  assert (Hd : denormalize_action [r] w
               = (w, inr (denormalized (action_space_low w)
                            (action_space_high w) (repeat r n)))).
  { unfold denormalize_action, denormalized, bind, gets.
    rewrite (np_binop_same_shape Qminus _ _ w (eq_sym Hb)).
    cbn [map]. rewrite np_binop_scalar_left.
    rewrite width_length by assumption.
    assert (R : repeat ((r + 1) / 2) (List.length (action_space_low w))
                = map (fun t => (t + 1) / 2) (repeat r n)).
    { subst n. rewrite map_repeat. reflexivity. }
    rewrite R.
    rewrite np_binop_same_shape; [reflexivity |].
    apply scaled_length; [assumption | apply repeat_length]. }
  split; [| split].
  - rewrite Hn. symmetry.
    apply normalize_action_run; [assumption | apply repeat_length].
  - rewrite Hd. symmetry.
    apply denormalize_action_run; [assumption | apply repeat_length].
  - eexists. split; [exact Hn |].
    apply normalized_length; [assumption | apply repeat_length].
Qed.

Lemma wrapper_broadcasts_scalar_action_witness :
  List.length (action_space_low unit_wrapper)
  = List.length (action_space_high unit_wrapper) /\
  normalize_action [1 # 2] unit_wrapper
  = normalize_action [1 # 2; 1 # 2; 1 # 2] unit_wrapper.
Proof.
  assert (Hb : List.length (action_space_low unit_wrapper)
               = List.length (action_space_high unit_wrapper))
    by reflexivity.
  split; [exact Hb |].
  exact (proj1 (wrapper_broadcasts_scalar_action unit_wrapper (1 # 2) Hb)).
Defined.

(** ** More on the termination check *)

Lemma Qabs_opp_eq (r : Q) : Qabs (- r) = Qabs r.
Proof.
  destruct r as [n d]. unfold Qabs, Qopp. cbn [Qnum Qden].
  rewrite Z.abs_opp. reflexivity.
Qed.

(** X6: the verdict depends only on the altitude and on the magnitudes of
    roll, pitch and the three angular rates: it is the same after the signs
    of the angles and rates are flipped and the horizontal position, the
    yaw angle, the velocity, the motor state, the orientation quaternion,
    the body id and the drag coefficient are replaced by any others. *)
Theorem compute_done_depends_on_magnitudes :
  forall (L : Library) (d : Drone) (id : Z) (k : Q) (xs quat : list Q) (px py yaw : Q)
         (vel : vec3),
    compute_done
      (mkDrone id k xs quat
         (mkVec3 px py (c2 (xyz d))) vel
         (mkVec3 (- c0 (rpy d)) (- c1 (rpy d)) yaw)
         (mkVec3 (- c0 (rpy_dot d)) (- c1 (rpy_dot d)) (- c2 (rpy_dot d))))
    = compute_done d.
Proof.
  intros L d id k xs quat px py yaw vel.
  rewrite !compute_done_masks. cbn [xyz rpy rpy_dot c0 c1 c2].
  rewrite !Qabs_opp_eq, !truthy_opp. reflexivity.
Qed.

(** ** More on the physics substep *)

Section SubstepEdges.
Context {L : Library}.

Lemma step_forward_short_run (e : Env) (action dstb : list Q) :
  (List.length dstb < 2)%nat ->
  exists t,
    step_forward action dstb e
    = (mkEnv (after_action e action) (calls e ++ t) (use_ground_effect e)
         (aggregate_phy_steps e) (iteration e) (last_action e) (np_random e),
       inl IndexError) /\
    firstn 3 t
    = [drone_apply_action action;
       drone_apply_motor_forces
         (fst (snd (agent_apply_action (drone e) action)));
       drone_apply_z_torque
         (snd (snd (agent_apply_action (drone e) action)))] /\
    filter is_tick t = [] /\
    forces_applied t = [] /\
    filter is_sample t = [] /\
    ~ In drone_update_information t.
Proof.
  intros H. unfold step_forward, after_action, apply_action, bind.
  destruct (agent_apply_action (drone e) action) as [d [mf zt]].
  destruct dstb as [| d0 [| d1 rest]]; [| | simpl in H; lia]; cbn.
  - exists [drone_apply_action action; drone_apply_motor_forces mf;
            drone_apply_z_torque zt].
    unfold log, set_drone. cbn. repeat rewrite <- app_assoc. cbn.
    repeat (split; [reflexivity |]).
    intros [F | [F | [F | []]]]; discriminate F.
  - exists [drone_apply_action action; drone_apply_motor_forces mf;
            drone_apply_z_torque zt;
            applyExternalTorque (body_unique_id d) 4 [d0; 0; 0] LINK_FRAME].
    unfold log, set_drone. cbn. repeat rewrite <- app_assoc. cbn.
    repeat (split; [reflexivity |]).
    intros [F | [F | [F | [F | []]]]]; discriminate F.
Qed.

End SubstepEdges.

(** X7: on a disturbance with fewer than two components the substep raises
    [IndexError] part-way: the motor model has already advanced the agent
    and the motor forces and the yaw torque are already applied, while no
    drag force is applied, no integration tick is made and the agent is not
    refreshed. *)
Theorem step_forward_short_disturbance :
  forall (L : Library) (e : Env) (action dstb : list Q),
    (List.length dstb < 2)%nat ->
    let r := step_forward action dstb e in
    let t := new_calls (calls e) (calls (fst r)) in
    snd r = inl IndexError /\
    drone (fst r) = after_action e action /\
    firstn 3 t
    = [drone_apply_action action;
       drone_apply_motor_forces
         (fst (snd (agent_apply_action (drone e) action)));
       drone_apply_z_torque
         (snd (snd (agent_apply_action (drone e) action)))] /\
    filter is_tick t = [] /\
    forces_applied t = [] /\
    ~ In drone_update_information t.
Proof.
  intros L e action dstb H r t.
  destruct (step_forward_short_run e action dstb H)
    as [t' [E [F3 [Tk [Fa [_ Nu]]]]]].
  subst t r. rewrite E. cbn [fst snd calls drone].
  rewrite new_calls_app. repeat split; assumption.
Qed.

Lemma step_forward_short_disturbance_witness :
  let r := @step_forward lag_library [0; 0; 0; 0] [1] low_env in
  (List.length [1] < 2)%nat /\
  snd r = inl IndexError /\
  filter is_tick (new_calls (calls low_env) (calls (fst r))) = [].
Proof.
  assert (H : (List.length [1] < 2)%nat) by (simpl; lia).
  destruct (step_forward_short_disturbance lag_library low_env [0; 0; 0; 0]
              [1] H) as [H1 [_ [_ [H4 _]]]].
  repeat split; assumption.
Defined.

(** X8: whatever the disturbance, a substep only adds calls to the log and
    leaves the rest of the environment alone: it draws no disturbance
    sample and does not change the random source, the iteration counter,
    the last action, the number of substeps or the ground-effect flag. *)
Theorem step_forward_frame :
  forall (L : Library) (e : Env) (action dstb : list Q),
    let e' := fst (step_forward action dstb e) in
    (exists t, calls e' = calls e ++ t /\ filter is_sample t = []) /\
    np_random e' = np_random e /\
    iteration e' = iteration e /\
    last_action e' = last_action e /\
    aggregate_phy_steps e' = aggregate_phy_steps e /\
    use_ground_effect e' = use_ground_effect e.
Proof.
  intros L e action dstb e'. subst e'.
  destruct (Nat.lt_ge_cases (List.length dstb) 2) as [H | H].
  - destruct (step_forward_short_run e action dstb H)
      as [t [E [_ [_ [_ [S _]]]]]].
    rewrite E. cbn. split; [exists t; split; [reflexivity | exact S] |].
    repeat split.
  - destruct dstb as [| d0 [| d1 rest]]; try (simpl in H; lia).
    destruct (step_forward_run e action d0 d1 rest)
      as [e1 [E [C [_ [U [A [I [La R]]]]]]]].
    rewrite E. cbn [fst].
    split.
    + exists (ordered_calls e action d0 d1). split; [exact C |].
      apply ordered_calls_no_sample.
    + repeat split; assumption.
Qed.

(** ** More on the drag force *)

Lemma square_nonneg (xi : Q) : 0 <= xi ^ 2.
Proof. change (xi ^ 2) with (xi * xi). nra. Qed.

Lemma motor_term_nonneg (xi : Q) : 0 <= 2 * np_pi * (xi ^ 2 * 25000) / 60.
Proof.
  pose proof (square_nonneg xi) as S. unfold np_pi. set (s := xi ^ 2) in *.
  apply Qle_shift_div_l; [reflexivity | lra].
Qed.

Lemma motor_sum_nonneg (xs : list Q) :
  0 <= fold_right Qplus 0
         (map (fun r => 2 * np_pi * r / 60)
            (map (fun xi => xi ^ 2 * 25000) xs)).
Proof.
  induction xs as [| xi xs IH]; cbn [map fold_right].
  - apply Qle_refl.
  - pose proof (motor_term_nonneg xi) as T. lra.
Qed.

Lemma motor_sum_stopped (xs : list Q) :
  Forall (fun xi => xi == 0) xs ->
  fold_right Qplus 0
    (map (fun r => 2 * np_pi * r / 60) (map (fun xi => xi ^ 2 * 25000) xs))
  == 0.
Proof.
  induction 1 as [| xi xs Hx Hrest IH]; cbn [map fold_right].
  - reflexivity.
  - rewrite IH, Hx. reflexivity.
Qed.

(** X9: with a non-negative drag coefficient the drag factor is never
    positive, whatever the motor state: the drag is a non-positive multiple
    of the rotated velocity. *)
Theorem drag_factors_nonpositive :
  forall d : Drone, 0 <= DRAG_COEFF d -> drag_factors d <= 0.
Proof.
  intros d Hc. unfold drag_factors, rpm_of.
  rewrite np_sum_fold_right.
  pose proof (motor_sum_nonneg (x d)) as S.
  set (s := fold_right Qplus 0 _) in *.
  assert (P : 0 <= DRAG_COEFF d * s) by (apply Qmult_le_0_compat; assumption).
  lra.
Qed.

Lemma drag_factors_nonpositive_witness :
  0 <= DRAG_COEFF low_drone /\ drag_factors low_drone <= 0.
Proof.
  assert (H : 0 <= DRAG_COEFF low_drone) by discriminate.
  split; [exact H | exact (drag_factors_nonpositive low_drone H)].
Defined.

(** X10: when every motor state is zero the drag force is the zero vector,
    whatever the velocity, the orientation and the drag coefficient. *)
Theorem drag_zero_when_motors_stopped :
  forall (L : Library) (d : Drone),
    Forall (fun xi => xi == 0) (x d) -> v3eq (drag_force d) zero3.
Proof.
  intros L d H.
  assert (Z : drag_factors d == 0).
  { unfold drag_factors, rpm_of.
    rewrite np_sum_fold_right, (motor_sum_stopped _ H). ring. }
  unfold drag_force, v3eq, np_dot, scale, dot3, zero3. cbn [c0 c1 c2].
  rewrite Z. repeat split; ring.
Qed.

Lemma drag_zero_when_motors_stopped_witness :
  Forall (fun xi => xi == 0) (x (mkDrone 7 (1 # 100) [0; 0; 0; 0]
                                   [0; 0; 0; 1] (mkVec3 0 0 1)
                                   (mkVec3 1 2 3) zero3 zero3)) /\
  v3eq (@drag_force lag_library
          (mkDrone 7 (1 # 100) [0; 0; 0; 0] [0; 0; 0; 1] (mkVec3 0 0 1)
             (mkVec3 1 2 3) zero3 zero3)) zero3.
Proof.
  assert (H : Forall (fun xi => xi == 0)
                (x (mkDrone 7 (1 # 100) [0; 0; 0; 0] [0; 0; 0; 1]
                      (mkVec3 0 0 1) (mkVec3 1 2 3) zero3 zero3)))
    by (repeat constructor).
  split; [exact H |].
  exact (drag_zero_when_motors_stopped lag_library _ H).
Defined.

(** ** More on the control step *)

Section StepRuns.
Context {L : Library}.

Lemma ordered_calls_no_observation (e : Env) (action : list Q) (d0 d1 : Q) :
  filter is_observation (ordered_calls e action d0 d1) = [].
Proof.
  unfold ordered_calls.
  destruct (agent_apply_action (drone e) action) as [d [mf zt]].
  destruct (ground_effect d mf) as [ge gef].
  destruct (ge && use_ground_effect e); reflexivity.
Qed.

Lemma substep_frame (e : Env) (action : list Q) (d0 d1 : Q) (rest : list Q) :
  exists e' t,
    substep action (d0 :: d1 :: rest) e = (e', inr tt) /\
    calls e' = calls e ++ t /\
    filter is_tick t = [stepSimulation] /\
    filter is_observation t = [env_compute_observation] /\
    filter is_sample t = [] /\
    iteration e' = (iteration e + 1)%Z /\
    last_action e' = last_action e /\
    np_random e' = np_random e /\
    aggregate_phy_steps e' = aggregate_phy_steps e /\
    use_ground_effect e' = use_ground_effect e.
Proof.
  unfold substep, bind at 1.
  cbn [emit modify].
  destruct (step_forward_run
              (log (physics_step_forward action (d0 :: d1 :: rest)) e)
              action d0 d1 rest)
    as [e1 [E [C [_ [U [A [I [La R]]]]]]]].
  unfold bind at 1. rewrite E.
  eexists.
  exists (physics_step_forward action (d0 :: d1 :: rest)
          :: ordered_calls e action d0 d1 ++ [env_compute_observation]).
  split; [reflexivity |].
  destruct (ordered_calls_no_sample e action d0 d1) as [NS _].
  cbn. rewrite C, A, I, R, La, U. cbn.
  split; [repeat rewrite <- app_assoc; reflexivity |].
  rewrite !filter_app, ordered_calls_ticks, ordered_calls_no_observation, NS.
  repeat split.
Qed.

Lemma loop_frame (action : list Q) (d0 d1 : Q) (rest : list Q) (n : nat) :
  forall e : Env,
  exists e' t,
    for_range n (substep action (d0 :: d1 :: rest)) e = (e', inr tt) /\
    calls e' = calls e ++ t /\
    filter is_tick t = repeat stepSimulation n /\
    filter is_observation t = repeat env_compute_observation n /\
    filter is_sample t = [] /\
    iteration e' = (iteration e + Z.of_nat n)%Z /\
    last_action e' = last_action e /\
    np_random e' = np_random e /\
    aggregate_phy_steps e' = aggregate_phy_steps e /\
    use_ground_effect e' = use_ground_effect e /\
    (n = O -> e' = e).
Proof.
  induction n as [| n IH]; intros e.
  - exists e, []. cbn. rewrite app_nil_r, Z.add_0_r. repeat split.
  - destruct (substep_frame e action d0 d1 rest)
      as [e1 [t1 [E [C [T [O [S [I [La [R [A U]]]]]]]]]]].
    destruct (IH e1)
      as [e2 [t2 [E2 [C2 [T2 [O2 [S2 [I2 [La2 [R2 [A2 [U2 _]]]]]]]]]]]].
    exists e2, (t1 ++ t2).
    cbn [for_range]. unfold bind at 1. rewrite E, E2.
    split; [reflexivity |].
    split; [rewrite C2, C, <- app_assoc; reflexivity |].
    rewrite !filter_app, T, T2, O, O2, S, S2.
    repeat split; try congruence.
    rewrite I2, I. lia.
Qed.

(** What a control step returns and where it leaves the environment, in
    terms of the state [e2] that the loop of substeps reaches. *)
Lemma step_run (e : Env) (action : list Q) :
  exists e2 t,
    let n := Z.to_nat (aggregate_phy_steps e) in
    let eh := log env_compute_history e2 in
    let er := log (env_compute_reward action) eh in
    let ei := log env_compute_info er in
    step action e
    = (set_last_action action ei,
       inr (history eh, reward er action, compute_done (drone e2), info ei))
    /\
    calls e2 = calls e ++ dstb_space_sample :: t /\
    filter is_tick t = repeat stepSimulation n /\
    filter is_observation t = repeat env_compute_observation n /\
    filter is_sample t = [] /\
    iteration e2 = (iteration e + Z.of_nat n)%Z /\
    last_action e2 = last_action e /\
    np_random e2
    = mkRng (draws (np_random e)) (cursor (np_random e) + 3) /\
    aggregate_phy_steps e2 = aggregate_phy_steps e /\
    use_ground_effect e2 = use_ground_effect e /\
    (n = O -> drone e2 = drone e /\ t = []).
Proof.
  destruct (dstb_gen_sample (agent_get_state (drone e)) e)
    as [d0 [d1 [d2 E0]]].
  set (u := draws (np_random e)) in *. set (k := cursor (np_random e)) in *.
  set (e1 := log dstb_space_sample
               (set_np_random (mkRng u (k + 3)) e)) in *.
  destruct (loop_frame action d0 d1 [d2] (Z.to_nat (aggregate_phy_steps e)) e1)
    as [e2 [t [E [C [T [O [S [I [La [R [A [U Z]]]]]]]]]]]].
  exists e2, t. cbn zeta.
  split.
  - unfold step, bind at 1. cbn [gets].
    unfold bind at 1.
    rewrite E0.
    unfold bind at 1. cbn [gets].
    change (aggregate_phy_steps e1) with (aggregate_phy_steps e).
    unfold bind at 1. rewrite E.
    reflexivity.
  - split; [rewrite C; cbn; rewrite <- app_assoc; reflexivity |].
    repeat (split; [assumption |]).
    intros Hn. specialize (Z Hn). subst e2.
    split; [reflexivity |].
    cbn in C. apply (app_inv_head (calls e ++ [dstb_space_sample])).
    rewrite app_nil_r. symmetry. exact C.
Qed.

End StepRuns.

(** X12: a control step with a non-negative number of substeps makes
    exactly that many integration ticks and that many observation updates,
    advances the iteration counter by that number, and stores the action as
    the last action. *)
Theorem step_bookkeeping :
  forall (L : Library) (e : Env) (action : list Q),
    (0 <= aggregate_phy_steps e)%Z ->
    let e' := fst (step action e) in
    let t := new_calls (calls e) (calls e') in
    Z.of_nat (List.length (filter is_tick t)) = aggregate_phy_steps e /\
    Z.of_nat (List.length (filter is_observation t)) = aggregate_phy_steps e /\
    iteration e' = (iteration e + aggregate_phy_steps e)%Z /\
    last_action e' = action /\
    aggregate_phy_steps e' = aggregate_phy_steps e.
Proof.
  intros L e action Hn e' t. subst e' t.
  destruct (step_run e action)
    as [e2 [t [E [C [T [O [S [I [La [R [A [U Z]]]]]]]]]]]].
  cbn zeta in E. rewrite E. cbn [fst].
  unfold set_last_action, log. cbn [calls iteration last_action
                                     aggregate_phy_steps].
  rewrite C. repeat rewrite <- app_assoc. rewrite new_calls_app.
  cbn [app filter is_tick is_observation].
  rewrite !filter_app, T, O. cbn. rewrite !app_nil_r, !repeat_length.
  repeat split; try lia; assumption.
Qed.

Lemma step_bookkeeping_witness :
  (0 <= aggregate_phy_steps hover_env)%Z /\
  iteration (fst (@step lag_library [0; 0; 0; 0] hover_env))
  = (iteration hover_env + aggregate_phy_steps hover_env)%Z.
Proof.
  assert (H : (0 <= aggregate_phy_steps hover_env)%Z) by (simpl; lia).
  split; [exact H |].
  exact (proj1 (proj2 (proj2
           (step_bookkeeping lag_library hover_env [0; 0; 0; 0] H)))).
Defined.

(** X13: with a number of substeps that is zero or negative a control step
    runs no physics: it still draws the disturbance and computes history,
    reward and info, the agent and the iteration counter are unchanged, and
    the verdict is the one of the unchanged agent. *)
Theorem step_without_substeps :
  forall (L : Library) (e : Env) (action : list Q),
    (aggregate_phy_steps e <= 0)%Z ->
    let r := step action e in
    new_calls (calls e) (calls (fst r))
    = [dstb_space_sample; env_compute_history; env_compute_reward action;
       env_compute_info] /\
    drone (fst r) = drone e /\
    iteration (fst r) = iteration e /\
    exists (o : Observation) (rw : Q) (i : InfoDict),
      snd r = inr (o, rw, compute_done (drone e), i).
Proof.
  intros L e action Hn r. subst r.
  destruct (step_run e action)
    as [e2 [t [E [C [T [O [S [I [La [R [A [U Z]]]]]]]]]]]].
  cbn zeta in E. rewrite E. cbn [fst snd].
  assert (N : Z.to_nat (aggregate_phy_steps e) = 0%nat) by lia.
  destruct (Z N) as [D Tn]. subst t.
  unfold set_last_action, log. cbn [calls iteration drone].
  rewrite C, D, I, N. repeat rewrite <- app_assoc. rewrite new_calls_app.
  split; [reflexivity |]. split; [reflexivity |].
  split; [cbn; lia |].
  do 3 eexists. reflexivity.
Qed.

Lemma step_without_substeps_witness :
  (aggregate_phy_steps
     (mkEnv low_drone [] true (-1) 0 [] (mkRng (fun _ => 1 # 2) 0)) <= 0)%Z /\
  drone (fst (@step lag_library [0; 0; 0; 0]
                (mkEnv low_drone [] true (-1) 0 []
                   (mkRng (fun _ => 1 # 2) 0))))
  = low_drone.
Proof.
  assert (H : (aggregate_phy_steps
                 (mkEnv low_drone [] true (-1) 0 []
                    (mkRng (fun _ => 1 # 2) 0)) <= 0)%Z)
    by (simpl; lia).
  split; [exact H |].
  exact (proj1 (proj2
           (step_without_substeps lag_library
              (mkEnv low_drone [] true (-1) 0 [] (mkRng (fun _ => 1 # 2) 0))
              [0; 0; 0; 0] H))).
Defined.

(** X14: when a control step returns, the verdict it returns is
    [compute_done] on the agent as the step leaves it, and the reward is
    computed on that agent while the environment still holds the last
    action of the step before. *)
Theorem step_verdict_and_reward :
  forall (L : Library) (e : Env) (action : list Q)
         (o : Observation) (rw : Q) (dn : bool) (i : InfoDict),
    snd (step action e) = inr (o, rw, dn, i) ->
    dn = compute_done (drone (fst (step action e))) /\
    exists er : Env,
      rw = reward er action /\
      drone er = drone (fst (step action e)) /\
      last_action er = last_action e /\
      iteration er = iteration (fst (step action e)).
Proof.
  intros L e action o rw dn i H.
  destruct (step_run e action)
    as [e2 [t [E [C [T [O [S [I [La [R [A [U Z]]]]]]]]]]]].
  cbn zeta in E. rewrite E in H |- *. cbn [fst snd] in H |- *.
  injection H as Ho Hr Hd Hi. subst o rw dn i.
  split; [reflexivity |].
  exists (log (env_compute_reward action) (log env_compute_history e2)).
  split; [reflexivity |].
  cbn. repeat split. exact La.
Qed.

Lemma step_verdict_and_reward_witness :
  exists (o : @Observation lag_library) (rw : Q) (dn : bool)
         (i : @InfoDict lag_library),
    snd (@step lag_library [0; 0; 0; 0] hover_env) = inr (o, rw, dn, i) /\
    dn = @compute_done lag_library
           (drone (fst (@step lag_library [0; 0; 0; 0] hover_env))).
Proof.
  destruct (snd (@step lag_library [0; 0; 0; 0] hover_env))
    as [x | [[[o rw] dn] i]] eqn:E.
  - vm_compute in E. discriminate E.
  - exists o, rw, dn, i. split; [reflexivity |].
    exact (proj1 (step_verdict_and_reward lag_library hover_env
                    [0; 0; 0; 0] o rw dn i E)).
Defined.

(** ** More on the simulation setup *)

Lemma agent_class_of_cases (model cls : string) :
  agent_class_of model = Some cls ->
  (model = "cf21x_bullet" /\ cls = "CrazyFlieBulletAgent")%string \/
  (model = "cf21x_sys_eq" /\ cls = "CrazyFlieSimpleAgent")%string \/
  (model = "cf21x_bullet_adversary"
   /\ cls = "CrazyFlieBulletAgentWithAdversary")%string.
Proof.
  unfold agent_class_of. intros H.
  destruct (String.eqb model "cf21x_bullet") eqn:E1.
  { apply String.eqb_eq in E1. left. split; congruence. }
  destruct (String.eqb model "cf21x_sys_eq") eqn:E2.
  { apply String.eqb_eq in E2. right; left. split; congruence. }
  destruct (String.eqb model "cf21x_bullet_adversary") eqn:E3.
  { apply String.eqb_eq in E3. right; right. split; congruence. }
  discriminate H.
Qed.

(** X17: when the adversary physics is asked for with a known drone model
    other than the adversary one, the setup raises [AssertionError] after
    the agent of the model has been constructed and the adversary physics
    has been registered in the physics module; no physics object is
    constructed. *)
Theorem setup_adversary_physics_needs_adversary_model :
  forall (s : Setup) (cls : string),
    agent_class_of (drone_model s) = Some cls ->
    drone_model s <> "cf21x_bullet_adversary"%string ->
    let r := _setup_simulation adversary_physics s in
    snd r = inl AssertionError /\
    agent (fst r) = Some cls /\
    physics_object (fst r) = physics_object s /\
    phoenix_physics (fst r)
    = (adversary_physics, adversary_physics) :: phoenix_physics s /\
    new_calls (setup_calls s) (setup_calls (fst r))
    = [setAdditionalSearchPath; loadURDF self_bc "plane.urdf" false;
       loadURDF pb_module (path_join (assets_path s) "room_10x10.urdf") true;
       new_agent cls].
Proof.
  intros s cls Hc Hm r. subst r.
  destruct (agent_class_of_cases _ _ Hc) as [[M C] | [[M C] | [M C]]];
    [| | congruence];
    subst cls;
    unfold _setup_simulation, adversary_physics, bind; cbn;
    rewrite M; cbn;
    repeat split;
    repeat rewrite <- app_assoc; apply new_calls_app.
Qed.

Lemma setup_adversary_physics_needs_adversary_model_witness :
  let r := _setup_simulation adversary_physics (fresh_setup "cf21x_sys_eq") in
  snd r = inl AssertionError /\
  agent (fst r) = Some "CrazyFlieSimpleAgent"%string /\
  physics_object (fst r) = None.
Proof.
  destruct (setup_adversary_physics_needs_adversary_model
              (fresh_setup "cf21x_sys_eq") "CrazyFlieSimpleAgent" eq_refl)
    as [H1 [H2 [H3 _]]].
  - intros H. discriminate H.
  - repeat split; assumption.
Defined.

(** X18: for a known drone model and a physics name that is neither the
    adversary physics nor an attribute of the physics module, the setup
    raises [AssertionError] after the agent has been constructed; no
    physics object is constructed. *)
Theorem setup_unknown_physics :
  forall (physics : string) (s : Setup) (cls : string),
    agent_class_of (drone_model s) = Some cls ->
    physics <> adversary_physics ->
    lookup physics (phoenix_physics s) = None ->
    let r := _setup_simulation physics s in
    snd r = inl AssertionError /\
    agent (fst r) = Some cls /\
    physics_object (fst r) = physics_object s /\
    filter
      (fun c => match c with new_physics _ => true | _ => false end)
      (new_calls (setup_calls s) (setup_calls (fst r))) = [].
Proof.
  intros physics s cls Hc Hp Hl r. subst r.
  apply String.eqb_neq in Hp. unfold adversary_physics in Hp.
  destruct (agent_class_of_cases _ _ Hc) as [[M C] | [[M C] | [M C]]];
    subst cls;
    unfold _setup_simulation, bind; cbn;
    rewrite M; cbn; unfold bind; cbn; rewrite Hp, Hl; cbn;
    repeat split;
    repeat rewrite <- app_assoc; rewrite new_calls_app; reflexivity.
Qed.

Lemma setup_unknown_physics_witness :
  let r := _setup_simulation "NoSuchPhysics" (fresh_setup "cf21x_bullet") in
  snd r = inl AssertionError /\
  agent (fst r) = Some "CrazyFlieBulletAgent"%string /\
  physics_object (fst r) = None.
Proof.
  destruct (setup_unknown_physics "NoSuchPhysics" (fresh_setup "cf21x_bullet")
              "CrazyFlieBulletAgent" eq_refl)
    as [H1 [H2 [H3 _]]].
  - intros H. discriminate H.
  - reflexivity.
  - repeat split; assumption.
Defined.

(** X19: however the setup ends, it has reset the gravity and the time
    step to their class constants, recorded an id for the plane it loaded,
    kept the drone model, and its first three calls are the search path,
    the plane through the client and the room through the engine module
    with a fixed base. *)
Theorem setup_always_resets_and_loads :
  forall (physics : string) (s : Setup),
    let r := _setup_simulation physics s in
    g (fst r) = Some (G s) /\
    time_step (fst r) = Some (TIME_STEP s) /\
    PLANE_ID (fst r) <> None /\
    drone_model (fst r) = drone_model s /\
    firstn 3 (new_calls (setup_calls s) (setup_calls (fst r)))
    = [setAdditionalSearchPath; loadURDF self_bc "plane.urdf" false;
       loadURDF pb_module (path_join (assets_path s) "room_10x10.urdf") true].
Proof.
  intros physics s r. subst r.
  unfold _setup_simulation, bind, assert. cbn.
  destruct (String.eqb (drone_model s) "cf21x_bullet");
    destruct (String.eqb (drone_model s) "cf21x_sys_eq");
    destruct (String.eqb (drone_model s) "cf21x_bullet_adversary");
    cbn; unfold bind; cbn;
    destruct (String.eqb physics "PybulletPhysicsWithAdversary"); cbn;
    try (destruct (lookup physics (phoenix_physics s)); cbn);
    (split; [reflexivity |]); (split; [reflexivity |]);
    (split; [discriminate |]); (split; [reflexivity |]);
    repeat rewrite <- app_assoc; rewrite new_calls_app; reflexivity.
Qed.

Lemma setup_adversary_configuration_witness :
  let r := _setup_simulation "PybulletPhysicsWithAdversary"
             (fresh_setup "cf21x_bullet_adversary") in
  snd r = inr tt /\
  agent (fst r) = Some "CrazyFlieBulletAgentWithAdversary"%string /\
  physics_object (fst r) = Some "PybulletPhysicsWithAdversary"%string.
Proof.
  apply (setup_adversary_configuration
           (fresh_setup "cf21x_bullet_adversary")).
  reflexivity.
Defined.

(** ** The training script *)

(** X20: an environment id that contains "Adversary" but is not the
    registered id makes [start_training] raise [AssertionError] at once:
    nothing is registered, printed, created or trained. *)
Theorem start_training_rejects_other_adversary_ids :
  forall (algo env_id : string) (t : Train),
    contains "Adversary" env_id = true ->
    env_id <> registered_id ->
    start_training algo env_id t = (t, inl AssertionError).
Proof.
  intros algo env_id t Hc Hn.
  apply String.eqb_neq in Hn.
  unfold start_training, register_adversary, bind, assert.
  rewrite Hc, Hn. reflexivity.
Qed.

Lemma start_training_rejects_other_adversary_ids_witness :
  start_training "ppo" "AdversaryHover-v1" script
  = (script, inl AssertionError).
Proof.
  apply (start_training_rejects_other_adversary_ids "ppo"
           "AdversaryHover-v1" script).
  - reflexivity.
  - intros H. discriminate H.
Defined.
